(** * VL53L1XZoneMonitor: zone state machine and debouncing engine

    A shallow embedding of [src/VL53L1XZoneMonitor.cpp] and
    [src/VL53L1XZoneMonitor.h].

    - [uint16_t] distances and [uint32_t] times are integers in [Z]; the only
      arithmetic the code does on them is the unsigned subtraction of
      [performUpdate], whose reduction modulo [2^32] is written out.
    - [size_t] counters are integers in [Z] reduced modulo [SIZE_MAX + 1]
      after each [++]; the width of [size_t] is given by the platform, so
      [SIZE_MAX] is a variable of the development.
    - a function pointer is the identity of the function it points to, and
      [nullptr] is [None]; a call through it is recorded in the list of
      effects the operation returns, in program order.
    - [std::vector<ZoneObserver>] is a [list], indexed with stdpp's lookup.
    - the sensor driver and [millis()] are external: every operation receives
      the answers the environment gives to the calls it makes.
    - a callback is recorded as a call and, as its contract demands, does not
      re-enter the monitor; the zones are written only by the operations of
      the monitor, not through a pointer obtained from [getZone]. *)

From stdpp Require Import base numbers list.
Local Open Scope Z_scope.

(** ** ZoneObserver *)

(** The identity of a user-supplied callback. *)
Definition fnptr := nat.

(** A call made through one of the two callback pointers. *)
Inductive invocation :=
| OnEnter (f : fnptr) (distance : Z)
| OnExit (f : fnptr).

Record ZoneObserver := mkZoneObserver {
  min_distance : Z;
  max_distance : Z;
  object_present : bool;
  on_enter : option fnptr;
  on_exit : option fnptr;
  in_zone_count : Z;
  out_zone_count : Z
}.

Definition set_min_distance (z : ZoneObserver) (v : Z) : ZoneObserver :=
  mkZoneObserver v (max_distance z) (object_present z) (on_enter z) (on_exit z)
    (in_zone_count z) (out_zone_count z).

Definition set_max_distance (z : ZoneObserver) (v : Z) : ZoneObserver :=
  mkZoneObserver (min_distance z) v (object_present z) (on_enter z) (on_exit z)
    (in_zone_count z) (out_zone_count z).

Definition set_object_present (z : ZoneObserver) (v : bool) : ZoneObserver :=
  mkZoneObserver (min_distance z) (max_distance z) v (on_enter z) (on_exit z)
    (in_zone_count z) (out_zone_count z).

Definition set_in_zone_count (z : ZoneObserver) (v : Z) : ZoneObserver :=
  mkZoneObserver (min_distance z) (max_distance z) (object_present z)
    (on_enter z) (on_exit z) v (out_zone_count z).

Definition set_out_zone_count (z : ZoneObserver) (v : Z) : ZoneObserver :=
  mkZoneObserver (min_distance z) (max_distance z) (object_present z)
    (on_enter z) (on_exit z) (in_zone_count z) v.

(** [ZoneObserver::ZoneObserver(min, max, onEnter, onExit)] *)
Definition ZoneObserver_new (min max : Z) (onEnter onExit : option fnptr)
  : ZoneObserver :=
  mkZoneObserver min max false onEnter onExit 0 0.

(** [if (f) f(args)] *)
Definition call_if_set (f : option fnptr) (k : fnptr → invocation)
  : list invocation :=
  match f with
  | Some p => [k p]
  | None => []
  end.

(** [bool in_zone = (distance >= min_distance && distance <= max_distance)] *)
Definition in_zone (z : ZoneObserver) (distance : Z) : bool :=
  (distance >=? min_distance z) && (distance <=? max_distance z).

Definition isObjectPresent (z : ZoneObserver) : bool := object_present z.

(** The result of code that indexes the vector with [operator[]], which is
    undefined behaviour out of bounds. *)
Inductive outcome (A : Type) :=
| Returns (a : A)
| OutOfBounds.
Arguments Returns {A} a.
Arguments OutOfBounds {A}.

(** [zones[i]] followed by [k]. *)
Definition at_index {A B} (l : list A) (i : nat) (k : A → B) : outcome B :=
  match l !! i with
  | Some x => Returns (k x)
  | None => OutOfBounds
  end.

Section SizeT.

(** The largest value of [size_t] on the target. C guarantees
    [65535 <= SIZE_MAX]; the theorems that need a bound state it. *)
Variable SIZE_MAX : Z.

(** Conversion to [size_t], and [c++] on a [size_t]. *)
Definition to_size_t (x : Z) : Z := x mod (SIZE_MAX + 1).
Definition incr (c : Z) : Z := to_size_t (c + 1).

(** [void ZoneObserver::evaluate(uint16_t distance, size_t certainty)] *)
Definition evaluate (z : ZoneObserver) (distance certainty : Z)
  : ZoneObserver * list invocation :=
  if in_zone z distance then
    let z := set_in_zone_count z (incr (in_zone_count z)) in
    let z := set_out_zone_count z 0 in
    if (in_zone_count z >=? certainty) && negb (object_present z) then
      (set_object_present z true,
       call_if_set (on_enter z) (λ f, OnEnter f distance))
    else (z, [])
  else
    let z := set_out_zone_count z (incr (out_zone_count z)) in
    let z := set_in_zone_count z 0 in
    if (out_zone_count z >=? certainty) && object_present z then
      (set_object_present z false, call_if_set (on_exit z) OnExit)
    else (z, []).

(** Feeding a sequence of samples to one zone with a fixed certainty. *)
Fixpoint feed (certainty : Z) (z : ZoneObserver) (samples : list Z)
  : ZoneObserver * list invocation :=
  match samples with
  | [] => (z, [])
  | d :: rest =>
      let '(z1, c1) := evaluate z d certainty in
      let '(z2, c2) := feed certainty z1 rest in
      (z2, c1 ++ c2)
  end.

(** The same with a certainty of its own for every call:
    each element is [(distance, certainty)]. *)
Fixpoint feed_each (z : ZoneObserver) (calls : list (Z * Z))
  : ZoneObserver * list invocation :=
  match calls with
  | [] => (z, [])
  | (d, n) :: rest =>
      let '(z1, c1) := evaluate z d n in
      let '(z2, c2) := feed_each z1 rest in
      (z2, c1 ++ c2)
  end.

(** ** VL53L1XZoneMonitor *)

(** The [sensor] member is the external driver; its state is not part of
    the record, its answers come with every operation (see [Env]). *)
Record VL53L1XZoneMonitor := mkMonitor {
  zones : list ZoneObserver;
  update_interval_ms : Z;
  last_update_time : Z;
  certainty_factor : Z
}.

Definition set_zones (m : VL53L1XZoneMonitor) (v : list ZoneObserver) :=
  mkMonitor v (update_interval_ms m) (last_update_time m) (certainty_factor m).

Definition set_last_update_time (m : VL53L1XZoneMonitor) (v : Z) :=
  mkMonitor (zones m) (update_interval_ms m) v (certainty_factor m).

Definition set_certainty_factor (m : VL53L1XZoneMonitor) (v : Z) :=
  mkMonitor (zones m) (update_interval_ms m) (last_update_time m) v.

(** What the environment answers during one operation of the monitor.
    [wall_call] is the wall-clock time in milliseconds since boot at which
    the operation starts, which is when it first reads the clock;
    [wall_stamp] is the wall-clock time of its second reading of the clock;
    [data_ready] and [sample] are the answers of [sensor.dataReady()] and
    [sensor.read(false)]. *)
Record Env := mkEnv {
  wall_call : Z;
  wall_stamp : Z;
  data_ready : bool;
  sample : Z
}.

(** Arduino's [millis()]: the wall clock as a 32-bit unsigned value. *)
Definition millis (wall : Z) : Z := wall mod 2 ^ 32.

(** [a - b] on [uint32_t]. *)
Definition sub_u32 (a b : Z) : Z := (a - b) mod 2 ^ 32.

Inductive effect :=
| Millis (t : Z)
| SensorDataReady (ready : bool)
| SensorRead (distance : Z)
| Callback (c : invocation).

(** [VL53L1XZoneMonitor(wire, interval_ms, certainty)]; binding the bus
    belongs to the driver. *)
Definition VL53L1XZoneMonitor_new (interval_ms certainty : Z)
  : VL53L1XZoneMonitor :=
  mkMonitor [] interval_ms 0 certainty.

(** [zones.emplace_back(min, max, onEnter, onExit)] *)
Definition addZone (m : VL53L1XZoneMonitor) (min max : Z)
    (onEnter onExit : option fnptr) : VL53L1XZoneMonitor :=
  set_zones m (zones m ++ [ZoneObserver_new min max onEnter onExit]).

Definition getZoneCount (m : VL53L1XZoneMonitor) : nat := length (zones m).

(** [for (auto &zone : zones) zone.evaluate(distance, certainty_factor)] *)
Fixpoint evaluate_zones (zs : list ZoneObserver) (distance certainty : Z)
  : list ZoneObserver * list invocation :=
  match zs with
  | [] => ([], [])
  | z :: rest =>
      let '(z', c) := evaluate z distance certainty in
      let '(rest', cs) := evaluate_zones rest distance certainty in
      (z' :: rest', c ++ cs)
  end.

(** [void VL53L1XZoneMonitor::performUpdate()]: [millis()] is called once
    in the condition and once more in the assignment. *)
Definition performUpdate (m : VL53L1XZoneMonitor) (e : Env)
  : VL53L1XZoneMonitor * list effect :=
  let t := millis (wall_call e) in
  if sub_u32 t (last_update_time m) >=? update_interval_ms m then
    let t' := millis (wall_stamp e) in
    let m := set_last_update_time m t' in
    if data_ready e then
      let distance := sample e in
      let '(zs, calls) :=
        evaluate_zones (zones m) distance (certainty_factor m) in
      (set_zones m zs,
       [Millis t; Millis t'; SensorDataReady true; SensorRead distance]
         ++ map Callback calls)
    else (m, [Millis t; Millis t'; SensorDataReady false])
  else (m, [Millis t]).

Definition update (m : VL53L1XZoneMonitor) (e : Env)
  : VL53L1XZoneMonitor * list effect :=
  performUpdate m e.

(** [bool VL53L1XZoneMonitor::isObjectInZone(size_t zone_index)] *)
Definition isObjectInZone (m : VL53L1XZoneMonitor) (zone_index : nat) (e : Env)
  : VL53L1XZoneMonitor * list effect * outcome bool :=
  let '(m, effs) := performUpdate m e in
  if (zone_index <? length (zones m))%nat then
    (m, effs, at_index (zones m) zone_index isObjectPresent)
  else (m, effs, Returns false).

(** A [ZoneObserver *] into the vector. *)
Inductive zone_ptr :=
| nullptr
| zone_at (slot : nat).

(** [ZoneObserver *VL53L1XZoneMonitor::getZone(size_t zone_index)] *)
Definition getZone (m : VL53L1XZoneMonitor) (zone_index : nat)
  : outcome zone_ptr :=
  if (zone_index <? length (zones m))%nat then
    at_index (zones m) zone_index (λ _, zone_at zone_index)
  else Returns nullptr.

(** [*p] for a pointer obtained from [getZone]. *)
Definition deref (m : VL53L1XZoneMonitor) (p : zone_ptr)
  : option ZoneObserver :=
  match p with
  | nullptr => None
  | zone_at i => zones m !! i
  end.

(** [void VL53L1XZoneMonitor::updateZone(zone_index, min_distance,
    max_distance)]; both assignments are behind the bounds check. *)
Definition updateZone (m : VL53L1XZoneMonitor) (zone_index : nat)
    (min_distance max_distance : Z) : VL53L1XZoneMonitor :=
  if (zone_index <? length (zones m))%nat then
    let m :=
      if negb (min_distance =? 0) then
        set_zones m
          (alter (λ z, set_min_distance z min_distance) zone_index (zones m))
      else m in
    let m :=
      if negb (max_distance =? 0) then
        set_zones m
          (alter (λ z, set_max_distance z max_distance) zone_index (zones m))
      else m in
    m
  else m.

(** [zones.erase(zones.begin() + zone_index)] behind the bounds check. *)
Definition deleteZone (m : VL53L1XZoneMonitor) (zone_index : nat)
  : VL53L1XZoneMonitor :=
  if (zone_index <? length (zones m))%nat then
    set_zones m (delete zone_index (zones m))
  else m.

(** [uint16_t VL53L1XZoneMonitor::getDistance()] *)
Definition getDistance (e : Env) : Z * list effect :=
  if data_ready e then
    (sample e, [SensorDataReady true; SensorRead (sample e)])
  else (0, [SensorDataReady false]).

Definition setCertaintyFactor (m : VL53L1XZoneMonitor) (certainty : Z)
  : VL53L1XZoneMonitor :=
  set_certainty_factor m certainty.

Definition getCertaintyFactor (m : VL53L1XZoneMonitor) : Z :=
  certainty_factor m.

(** ** Sequences of operations on a monitor *)

(** The public operations that change the monitor or touch the sensor.
    ([getZone], [getZoneCount] and [getCertaintyFactor] only read; the
    configuration setters go straight to the driver.) *)
Inductive request :=
| AddZone (min max : Z) (onEnter onExit : option fnptr)
| UpdateZone (zone_index : nat) (min_distance max_distance : Z)
| DeleteZone (zone_index : nat)
| SetCertaintyFactor (certainty : Z)
| Update
| IsObjectInZone (zone_index : nat)
| GetDistance.

Definition handle (m : VL53L1XZoneMonitor) (r : request) (e : Env)
  : VL53L1XZoneMonitor * list effect :=
  match r with
  | AddZone min max onEnter onExit => (addZone m min max onEnter onExit, [])
  | UpdateZone i min max => (updateZone m i min max, [])
  | DeleteZone i => (deleteZone m i, [])
  | SetCertaintyFactor n => (setCertaintyFactor m n, [])
  | Update => update m e
  | IsObjectInZone i => fst (isObjectInZone m i e)
  | GetDistance => (m, snd (getDistance e))
  end.

(** One entry of the history of a run: the request, the answers of the
    environment and the effects of the operation. *)
Definition entry : Type := request * Env * list effect.

Fixpoint run (m : VL53L1XZoneMonitor) (trace : list (request * Env))
  : VL53L1XZoneMonitor * list entry :=
  match trace with
  | [] => (m, [])
  | (r, e) :: rest =>
      let '(m1, effs) := handle m r e in
      let '(m2, h) := run m1 rest in
      (m2, (r, e, effs) :: h)
  end.

(** The operations that go through [performUpdate]. *)
Definition ticks (r : request) : bool :=
  match r with
  | Update | IsObjectInZone _ => true
  | _ => false
  end.

Definition is_read (x : effect) : bool :=
  match x with
  | SensorRead _ => true
  | _ => false
  end.

(** The wall-clock time of the sensor accesses of an operation: a tick
    accesses the sensor right after its second reading of the clock;
    [getDistance] reads no clock and is dated by the time of the call. *)
Definition access_time (r : request) (e : Env) : Z :=
  if ticks r then wall_stamp e else wall_call e.

(** The times of all sample reads of a history, in order. *)
Definition sensor_reads (h : list entry) : list Z :=
  flat_map
    (λ '(r, e, effs), map (λ _, access_time r e) (List.filter is_read effs)) h.

(** The times of the sample reads made by ticks. *)
Definition tick_reads (h : list entry) : list Z :=
  sensor_reads (List.filter (λ '(r, _, _), ticks r) h).

(** How many of [times] fall in the interval [[a, a + dt]]. *)
Definition reads_within (a dt : Z) (times : list Z) : Z :=
  Z.of_nat (length (List.filter (λ t, (a <=? t) && (t <=? a + dt)) times)).

(** [⌈a / b⌉] for [b > 0]. *)
Definition ceil_div (a b : Z) : Z := (a + b - 1) / b.

(** The wall clock does not go back from one reading to the next. *)
Fixpoint clock_monotone (from : Z) (trace : list (request * Env)) : Prop :=
  match trace with
  | [] => True
  | (_, e) :: rest =>
      from <= wall_call e ∧ wall_call e <= wall_stamp e
      ∧ clock_monotone (wall_stamp e) rest
  end.

(** Every [size_t] argument of the trace is a [size_t] value. *)
Definition size_t_args (trace : list (request * Env)) : Prop :=
  Forall (λ '(r, _),
    match r with
    | SetCertaintyFactor n => 0 <= n <= SIZE_MAX
    | _ => True
    end) trace.

(** ** Notions the properties are stated with *)

Definition is_enter (c : invocation) : bool :=
  match c with
  | OnEnter _ _ => true
  | OnExit _ => false
  end.

Definition is_exit (c : invocation) : bool := negb (is_enter c).

Definition count_enter (cs : list invocation) : nat :=
  length (List.filter is_enter cs).

Definition count_exit (cs : list invocation) : nat :=
  length (List.filter is_exit cs).

(** The maximal runs of consecutive samples on the same side of the
    window, each with its side ([true] for in range). *)
Fixpoint runs (inside : Z → bool) (samples : list Z) : list (bool * list Z) :=
  match samples with
  | [] => []
  | d :: rest =>
      match runs inside rest with
      | (b, ds) :: rs =>
          if Bool.eqb (inside d) b then (b, d :: ds) :: rs
          else (inside d, [d]) :: (b, ds) :: rs
      | [] => [(inside d, [d])]
      end
  end.

(** The number of runs on side [side] that have at least [certainty]
    samples and begin in the opposite state ([object_present = negb side]);
    [z] is the zone before the first run. *)
Fixpoint count_runs (certainty : Z) (side : bool) (z : ZoneObserver)
    (rs : list (bool * list Z)) : nat :=
  match rs with
  | [] => 0%nat
  | (b, ds) :: rest =>
      ((if Bool.eqb b side && (Z.of_nat (length ds) >=? certainty)
           && Bool.eqb (object_present z) (negb side)
        then 1 else 0)
       + count_runs certainty side (fst (feed certainty z ds)) rest)%nat
  end.

(** Runs of in-range samples of length [>= certainty] entered from Empty. *)
Definition entering_runs (certainty : Z) (z : ZoneObserver) (samples : list Z)
  : nat :=
  count_runs certainty true z (runs (in_zone z) samples).

(** Runs of out-of-range samples of length [>= certainty] entered from
    Occupied. *)
Definition leaving_runs (certainty : Z) (z : ZoneObserver) (samples : list Z)
  : nat :=
  count_runs certainty false z (runs (in_zone z) samples).

(** No two invocations of the kind [same] without an invocation of the
    other kind in between; [pending] says that one of the kind [same] has
    been seen since the last one of the other kind. *)
Fixpoint no_repeat (same : invocation → bool) (pending : bool)
    (cs : list invocation) : bool :=
  match cs with
  | [] => true
  | c :: rest =>
      if same c then negb pending && no_repeat same true rest
      else no_repeat same false rest
  end.

(** [in_streak = 0 ∨ out_streak = 0] *)
Definition streak_exclusive (z : ZoneObserver) : Prop :=
  in_zone_count z = 0 ∨ out_zone_count z = 0.

(** The counter whose threshold test can still flip [object_present] is a
    [size_t] value below [SIZE_MAX], so the next [++] does not wrap. *)
Definition wrap_free (z : ZoneObserver) : Prop :=
  (object_present z = false → 0 <= in_zone_count z < SIZE_MAX)
  ∧ (object_present z = true → 0 <= out_zone_count z < SIZE_MAX).


(** The counter of one side: [in_zone_count] for [true]. *)
Definition streak (side : bool) (z : ZoneObserver) : Z :=
  if side then in_zone_count z else out_zone_count z.

(** The invocation that goes with the transition to [side]. *)
Definition fire (side : bool) (z : ZoneObserver) (d : Z) : list invocation :=
  if side then call_if_set (on_enter z) (λ f, OnEnter f d)
  else call_if_set (on_exit z) OnExit.

(** [z'] has the window and the callbacks of [z]. *)
Definition same_setup (z z' : ZoneObserver) : Prop :=
  min_distance z' = min_distance z ∧ max_distance z' = max_distance z
  ∧ on_enter z' = on_enter z ∧ on_exit z' = on_exit z.

(** A list of runs as [runs] builds them: no run is empty, the samples of
    a run are on its side, and consecutive runs are on opposite sides. *)
Fixpoint alternating (inside : Z → bool) (rs : list (bool * list Z)) : Prop :=
  match rs with
  | [] => True
  | (b, ds) :: rest =>
      ds ≠ [] ∧ Forall (λ d, inside d = b) ds
      ∧ match rest with
        | (b', _) :: _ => b' = negb b
        | [] => True
        end
      ∧ alternating inside rest
  end.

(** The number of invocations of the callback of [side]. *)
Definition count_side (side : bool) (cs : list invocation) : nat :=
  if side then count_enter cs else count_exit cs.

(** Whether the callback of [side] is set. *)
Definition callback_set (side : bool) (z : ZoneObserver) : bool :=
  match (if side then on_enter z else on_exit z) with
  | Some _ => true
  | None => false
  end.

(** Every time of the list is at least [gap] after the ones before it. *)
Fixpoint spaced (gap : Z) (times : list Z) : Prop :=
  match times with
  | [] => True
  | t :: rest => Forall (λ u, t + gap <= u) rest ∧ spaced gap rest
  end.

(** ** Concrete data for the examples *)

(** [SIZE_MAX] where [size_t] has 32 bits. *)
Definition SIZE_MAX_32 : Z := 4294967295.

(** The window [[100, 300]] with both callbacks, with [on_enter] only and
    with none. *)
Definition zone_both : ZoneObserver :=
  ZoneObserver_new 100 300 (Some 1%nat) (Some 2%nat).
Definition zone_enter_only : ZoneObserver :=
  ZoneObserver_new 100 300 (Some 1%nat) None.
Definition zone_silent : ZoneObserver := ZoneObserver_new 100 300 None None.

(** A zone whose window has its bounds the wrong way round. *)
Definition zone_inverted : ZoneObserver :=
  ZoneObserver_new 300 100 (Some 1%nat) (Some 2%nat).

(** An Empty zone whose [in_zone_count] is [SIZE_MAX]. *)
Definition zone_at_wrap : ZoneObserver :=
  mkZoneObserver 100 300 false (Some 1%nat) (Some 2%nat) SIZE_MAX_32 0.

(** A monitor with three zones, the second one Occupied. *)
Definition monitor_three : VL53L1XZoneMonitor :=
  mkMonitor
    [ZoneObserver_new 100 200 (Some 1%nat) (Some 2%nat);
     mkZoneObserver 150 250 true (Some 3%nat) None 4 0;
     ZoneObserver_new 300 400 None None]
    50 0 2.

(** Three calls of [getDistance] within 20 ms, a sample ready each time. *)
Definition probe_trace : list (request * Env) :=
  [(GetDistance, mkEnv 0 0 true 200);
   (GetDistance, mkEnv 10 10 true 200);
   (GetDistance, mkEnv 20 20 true 200)].

(** A zone is added, then the main loop calls [update] every 10 ms. *)
Definition loop_trace : list (request * Env) :=
  [(AddZone 100 300 (Some 1%nat) (Some 2%nat), mkEnv 0 0 false 0);
   (Update, mkEnv 40 40 true 200);
   (Update, mkEnv 50 50 true 200);
   (Update, mkEnv 60 60 true 200);
   (SetCertaintyFactor 2, mkEnv 65 65 false 0);
   (IsObjectInZone 0, mkEnv 100 101 true 400);
   (GetDistance, mkEnv 120 120 true 400);
   (Update, mkEnv 151 151 true 400)].

(** ** Initialisation *)

(** The calls [init] makes to the driver. *)
Inductive driver_call :=
| SensorInit
| SensorStartContinuous (period_ms : Z).

(** [bool VL53L1XZoneMonitor::init()]; [sensor_ok] is what [sensor.init()]
    answers. The monitor itself is not written. *)
Definition init (m : VL53L1XZoneMonitor) (sensor_ok : bool)
  : bool * list driver_call :=
  if negb sensor_ok then (false, [SensorInit])
  else (true, [SensorInit; SensorStartContinuous (update_interval_ms m)]).

(** The number of samples on [side] that end the sequence, counted on from
    [acc]: a sample on the side adds one, a sample on the other side
    starts again from 0. *)
Fixpoint run_length (inside : Z → bool) (side : bool) (acc : nat)
    (samples : list Z) : nat :=
  match samples with
  | [] => acc
  | d :: rest =>
      run_length inside side
        (if Bool.eqb (inside d) side then S acc else 0%nat) rest
  end.

(** What [updateZone] with the bounds [min] and [max] makes of a zone. *)
Definition rebound (min max : Z) (z : ZoneObserver) : ZoneObserver :=
  mkZoneObserver
    (if min =? 0 then min_distance z else min)
    (if max =? 0 then max_distance z else max)
    (object_present z) (on_enter z) (on_exit z)
    (in_zone_count z) (out_zone_count z).

(** A monitor whose last tick was 10 ms before [millis()] rolls over. *)
Definition monitor_before_rollover : VL53L1XZoneMonitor :=
  mkMonitor [zone_both] 50 4294967286 1.
(** An invariant of a monitor: [P] holds of every zone and [Q] of the
    certainty factor. *)
Definition monitor_inv (P : ZoneObserver → Prop) (Q : Z → Prop)
    (m : VL53L1XZoneMonitor) : Prop :=
  Forall P (zones m) ∧ Q (certainty_factor m).

(** [Q] holds of the certainty a request sets. *)
Definition request_inv (Q : Z → Prop) (r : request) : Prop :=
  match r with
  | SetCertaintyFactor n => Q n
  | _ => True
  end.

(** * Properties *)

(** ** One call of [evaluate] *)

Lemma in_zone_closed z d :
  in_zone z d = true ↔ min_distance z <= d <= max_distance z.
Proof.
  unfold in_zone. rewrite andb_true_iff, Z.geb_le, Z.leb_le. tauto.
Qed.

Lemma evaluate_inside z d n :
  in_zone z d = true →
  evaluate z d n =
    let c := incr (in_zone_count z) in
    if (c >=? n) && negb (object_present z) then
      (mkZoneObserver (min_distance z) (max_distance z) true
         (on_enter z) (on_exit z) c 0,
       call_if_set (on_enter z) (λ f, OnEnter f d))
    else
      (mkZoneObserver (min_distance z) (max_distance z) (object_present z)
         (on_enter z) (on_exit z) c 0, []).
Proof. intros H. unfold evaluate. rewrite H. reflexivity. Qed.

Lemma evaluate_outside z d n :
  in_zone z d = false →
  evaluate z d n =
    let c := incr (out_zone_count z) in
    if (c >=? n) && object_present z then
      (mkZoneObserver (min_distance z) (max_distance z) false
         (on_enter z) (on_exit z) 0 c,
       call_if_set (on_exit z) OnExit)
    else
      (mkZoneObserver (min_distance z) (max_distance z) (object_present z)
         (on_enter z) (on_exit z) 0 c, []).
Proof. intros H. unfold evaluate. rewrite H. reflexivity. Qed.

(** [evaluate] writes neither the window nor the callback pointers. *)
Lemma evaluate_frame z d n :
  let z' := fst (evaluate z d n) in
  min_distance z' = min_distance z ∧ max_distance z' = max_distance z
  ∧ on_enter z' = on_enter z ∧ on_exit z' = on_exit z.
Proof.
  unfold evaluate.
  destruct (in_zone z d); simpl;
    match goal with |- context [if ?b then _ else _] => destruct b end;
    simpl; auto.
Qed.

Lemma call_if_set_length f k : (length (call_if_set f k) <= 1)%nat.
Proof. destruct f; simpl; lia. Qed.

(** C1. For every zone state, sample [d] and certainty [n] (in particular
    every [n >= 1]): [evaluate] takes [d] as in-zone exactly when
    [min_distance <= d <= max_distance]. In zone, [in_zone_count] becomes
    [(in_zone_count + 1) mod (SIZE_MAX + 1)], the [size_t] increment, and
    [out_zone_count] becomes 0; if the new
    [in_zone_count >= n] and [object_present] is false, [object_present]
    becomes true and [on_enter d] is called if the pointer is set, otherwise
    the flag stays and nothing is called. Out of zone the same holds with the
    two counters exchanged, [object_present] going from true to false and
    [on_exit] called. At most one callback is called, and the call always
    returns a state and a list of calls. *)
Theorem C1_evaluate_step (z : ZoneObserver) (d n : Z) :
  ∃ z' cs,
    evaluate z d n = (z', cs)
    ∧ (in_zone z d = true ↔ min_distance z <= d <= max_distance z)
    ∧ (if in_zone z d then
         in_zone_count z' = (in_zone_count z + 1) mod (SIZE_MAX + 1)
         ∧ out_zone_count z' = 0
         ∧ (if decide (in_zone_count z' >= n ∧ object_present z = false) then
              object_present z' = true
              ∧ cs = match on_enter z with
                     | Some f => [OnEnter f d]
                     | None => []
                     end
            else object_present z' = object_present z ∧ cs = [])
       else
         out_zone_count z' = (out_zone_count z + 1) mod (SIZE_MAX + 1)
         ∧ in_zone_count z' = 0
         ∧ (if decide (out_zone_count z' >= n ∧ object_present z = true) then
              object_present z' = false
              ∧ cs = match on_exit z with
                     | Some f => [OnExit f]
                     | None => []
                     end
            else object_present z' = object_present z ∧ cs = []))
    ∧ (length cs <= 1)%nat
    ∧ min_distance z' = min_distance z ∧ max_distance z' = max_distance z
    ∧ on_enter z' = on_enter z ∧ on_exit z' = on_exit z.
Proof.
  destruct (evaluate z d n) as [z' cs] eqn:E.
  exists z', cs. split; [reflexivity|].
  split; [apply in_zone_closed|].
  pose proof (evaluate_frame z d n) as F. rewrite E in F. simpl in F.
  destruct (in_zone z d) eqn:I.
  - rewrite (evaluate_inside _ _ _ I) in E. cbv zeta in E.
    rewrite Z.geb_leb in E.
    destruct (Z.leb_spec n (incr (in_zone_count z))) as [G|G];
      destruct (object_present z) eqn:P; simpl in E; inversion E; subst;
      simpl; rewrite ?P; repeat split; try apply F;
      try apply call_if_set_length; try (simpl; lia);
      case_decide; try split; try reflexivity; try lia;
      try (exfalso; intuition (congruence || lia)).
  - rewrite (evaluate_outside _ _ _ I) in E. cbv zeta in E.
    rewrite Z.geb_leb in E.
    destruct (Z.leb_spec n (incr (out_zone_count z))) as [G|G];
      destruct (object_present z) eqn:P; simpl in E; inversion E; subst;
      simpl; rewrite ?P; repeat split; try apply F;
      try apply call_if_set_length; try (simpl; lia);
      case_decide; try split; try reflexivity; try lia;
      try (exfalso; intuition (congruence || lia)).
Qed.

(** ** Invariants of the zones of a monitor *)

Section ZoneInvariant.

(** [P] is a property of zones that construction establishes and that
    [evaluate] keeps for every certainty satisfying [Q]; it does not
    depend on the window. *)
Variable P : ZoneObserver → Prop.
Variable Q : Z → Prop.
Hypothesis P_new : ∀ min max f g, P (ZoneObserver_new min max f g).
Hypothesis P_evaluate : ∀ z d n, Q n → P z → P (fst (evaluate z d n)).
Hypothesis P_min : ∀ z v, P z → P (set_min_distance z v).
Hypothesis P_max : ∀ z v, P z → P (set_max_distance z v).

Lemma evaluate_zones_Forall zs d n :
  Q n → Forall P zs → Forall P (fst (evaluate_zones zs d n)).
Proof.
  intros Hn. induction 1 as [|z zs Hz _ IH]; simpl; [constructor|].
  specialize (P_evaluate z d n Hn Hz).
  destruct (evaluate z d n) as [z' c].
  destruct (evaluate_zones zs d n) as [zs' cs]. simpl in *.
  constructor; assumption.
Qed.

Lemma Forall_alter_zone (f : ZoneObserver → ZoneObserver) i zs :
  (∀ z, P z → P (f z)) → Forall P zs → Forall P (alter f i zs).
Proof.
  intros Hf Hzs. apply Forall_lookup. intros j x Hj.
  rewrite Forall_lookup in Hzs.
  destruct (decide (i = j)) as [->|Hne].
  - rewrite list_lookup_alter_eq in Hj.
    apply fmap_Some in Hj as (y & Hy & ->). eauto.
  - rewrite list_lookup_alter_ne in Hj by assumption. eauto.
Qed.

Lemma Forall_delete_zone i (zs : list ZoneObserver) :
  Forall P zs → Forall P (delete i zs).
Proof.
  intros H. apply Forall_lookup. intros j x Hj.
  rewrite Forall_lookup in H. rewrite list_lookup_delete in Hj. eauto.
Qed.

Lemma performUpdate_inv m e :
  monitor_inv P Q m → monitor_inv P Q (fst (performUpdate m e)).
Proof.
  intros [Hz Hq]. unfold performUpdate.
  destruct (_ >=? _); [|split; assumption].
  destruct (data_ready e); [|split; assumption].
  simpl. pose proof (evaluate_zones_Forall (zones m) (sample e) _ Hq Hz) as H.
  destruct (evaluate_zones _ _ _) as [zs cs]. split; assumption.
Qed.

Lemma updateZone_inv m i min max :
  monitor_inv P Q m → monitor_inv P Q (updateZone m i min max).
Proof.
  intros [Hz Hq]. unfold updateZone.
  destruct (_ <? _)%nat; [|split; assumption].
  destruct (negb (min =? 0)); destruct (negb (max =? 0)); simpl;
    split; try assumption; repeat apply Forall_alter_zone; auto.
Qed.

Lemma handle_inv m r e :
  request_inv Q r → monitor_inv P Q m → monitor_inv P Q (fst (handle m r e)).
Proof.
  intros Hr Hm. destruct r; simpl.
  - destruct Hm as [Hz Hq]. split; [|assumption]. simpl.
    apply Forall_app_2; [assumption|]. constructor; [apply P_new|constructor].
  - apply updateZone_inv, Hm.
  - destruct Hm as [Hz Hq]. unfold deleteZone.
    destruct (_ <? _)%nat; split; try assumption.
    apply Forall_delete_zone, Hz.
  - destruct Hm as [Hz Hq]. split; assumption.
  - apply performUpdate_inv, Hm.
  - unfold isObjectInZone.
    pose proof (performUpdate_inv m e Hm) as H.
    destruct (performUpdate m e) as [m' effs].
    destruct (_ <? _)%nat; exact H.
  - exact Hm.
Qed.

Lemma run_inv trace m :
  Forall (λ re, request_inv Q (fst re)) trace →
  monitor_inv P Q m → monitor_inv P Q (fst (run m trace)).
Proof.
  intros Ht. revert m. induction Ht as [|[r e] rest Hr _ IH]; intros m Hm;
    simpl; [assumption|].
  pose proof (handle_inv m r e Hr Hm) as H.
  destruct (handle m r e) as [m1 effs].
  specialize (IH m1 H). destruct (run m1 rest) as [m2 h]. exact IH.
Qed.

End ZoneInvariant.

(** ** Streak exclusivity *)

Lemma evaluate_streak_exclusive z d n :
  streak_exclusive (fst (evaluate z d n)).
Proof.
  unfold evaluate, streak_exclusive.
  destruct (in_zone z d); simpl;
    match goal with |- context [if ?b then _ else _] => destruct b end;
    simpl; auto.
Qed.

(** C3. After any call of [evaluate], on any zone state,
    [in_zone_count = 0] or [out_zone_count = 0]; and in a monitor built by
    the constructor, after any sequence of public operations, every zone
    has one of its two counters at 0. *)
Theorem C3_streak_exclusive :
  (∀ z d n, streak_exclusive (fst (evaluate z d n)))
  ∧ (∀ min max f g calls,
       streak_exclusive (fst (feed_each (ZoneObserver_new min max f g) calls)))
  ∧ (∀ interval_ms certainty trace,
       Forall streak_exclusive
         (zones (fst (run (VL53L1XZoneMonitor_new interval_ms certainty)
                        trace)))).
Proof.
  split; [exact evaluate_streak_exclusive|]. split.
  - intros min max f g calls.
    assert (H : streak_exclusive (ZoneObserver_new min max f g))
      by (left; reflexivity).
    revert H. generalize (ZoneObserver_new min max f g).
    induction calls as [|[d n] rest IH]; intros z Hz; simpl; [assumption|].
    pose proof (evaluate_streak_exclusive z d n) as H1.
    destruct (evaluate z d n) as [z1 c1]. specialize (IH z1 H1).
    destruct (feed_each z1 rest) as [z2 c2]. exact IH.
  - intros interval_ms certainty trace.
    apply (run_inv streak_exclusive (λ _, True)).
    + intros; left; reflexivity.
    + intros; apply evaluate_streak_exclusive.
    + intros z v Hz; exact Hz.
    + intros z v Hz; exact Hz.
    + apply Forall_forall. intros [[] ?] _; exact I.
    + split; [constructor|exact I].
Qed.

(** ** Zone management *)

Lemma lt_length_true {A} (l : list A) i :
  (i < length l)%nat → (i <? length l)%nat = true.
Proof. apply Nat.ltb_lt. Qed.

Lemma ge_length_false {A} (l : list A) i :
  (length l <= i)%nat → (i <? length l)%nat = false.
Proof. apply Nat.ltb_ge. Qed.

(** C6. For an index [i] in range, [deleteZone] leaves the zones at the
    indices below [i] where they are, moves the zone at every index
    [j > i] to [j - 1], makes [getZoneCount] one less and changes no
    other member; for an index out of range the monitor is unchanged. *)
Theorem C6_deleteZone (m : VL53L1XZoneMonitor) (i : nat) :
  ((i < getZoneCount m)%nat →
     (∀ j, (j < i)%nat → zones (deleteZone m i) !! j = zones m !! j)
     ∧ (∀ j, (i < j)%nat →
          zones (deleteZone m i) !! (j - 1)%nat = zones m !! j)
     ∧ S (getZoneCount (deleteZone m i)) = getZoneCount m
     ∧ update_interval_ms (deleteZone m i) = update_interval_ms m
     ∧ last_update_time (deleteZone m i) = last_update_time m
     ∧ certainty_factor (deleteZone m i) = certainty_factor m)
  ∧ ((getZoneCount m <= i)%nat → deleteZone m i = m).
Proof.
  unfold getZoneCount, deleteZone. split; intros H.
  - rewrite (lt_length_true _ _ H). simpl. repeat split.
    + intros j Hj. apply list_lookup_delete_lt, Hj.
    + intros j Hj. rewrite list_lookup_delete_ge by lia.
      f_equal. lia.
    + rewrite length_delete by (apply lookup_lt_is_Some_2, H). lia.
  - rewrite (ge_length_false _ _ H). reflexivity.
Qed.

(** C7. [updateZone] does nothing for an index out of range. For an index
    in range the zone there gets [min] as its lower bound unless [min] is 0
    and [max] as its upper bound unless [max] is 0, and keeps its counters,
    its flag and its callbacks; every other index holds the zone it held,
    the number of zones is the same and no other member changes. With both
    bounds 0 the monitor is unchanged. *)
Theorem C7_updateZone (m : VL53L1XZoneMonitor) (i : nat) (min max : Z) :
  ((getZoneCount m <= i)%nat → updateZone m i min max = m)
  ∧ (∀ z, zones m !! i = Some z →
       zones (updateZone m i min max) !! i =
         Some (mkZoneObserver
                 (if min =? 0 then min_distance z else min)
                 (if max =? 0 then max_distance z else max)
                 (object_present z) (on_enter z) (on_exit z)
                 (in_zone_count z) (out_zone_count z)))
  ∧ (∀ j, j ≠ i → zones (updateZone m i min max) !! j = zones m !! j)
  ∧ getZoneCount (updateZone m i min max) = getZoneCount m
  ∧ update_interval_ms (updateZone m i min max) = update_interval_ms m
  ∧ last_update_time (updateZone m i min max) = last_update_time m
  ∧ certainty_factor (updateZone m i min max) = certainty_factor m
  ∧ updateZone m i 0 0 = m.
Proof.
  unfold getZoneCount, updateZone. repeat split.
  - intros H. rewrite (ge_length_false _ _ H). reflexivity.
  - intros z Hz.
    rewrite (lt_length_true _ i) by (apply lookup_lt_is_Some_1; eauto).
    destruct (min =? 0); destruct (max =? 0); simpl;
      rewrite ?list_lookup_alter_eq, ?Hz; simpl; try reflexivity.
    destruct z; reflexivity.
  - intros j Hj. destruct (i <? length (zones m))%nat; [|reflexivity].
    destruct (min =? 0); destruct (max =? 0); simpl;
      rewrite ?list_lookup_alter_ne by auto; reflexivity.
  - destruct (i <? length (zones m))%nat; [|reflexivity].
    destruct (min =? 0); destruct (max =? 0); simpl;
      rewrite ?length_alter; reflexivity.
  - destruct (i <? length (zones m))%nat; [|reflexivity].
    destruct (min =? 0); destruct (max =? 0); reflexivity.
  - destruct (i <? length (zones m))%nat; [|reflexivity].
    destruct (min =? 0); destruct (max =? 0); reflexivity.
  - destruct (i <? length (zones m))%nat; [|reflexivity].
    destruct (min =? 0); destruct (max =? 0); reflexivity.
  - destruct (i <? length (zones m))%nat; reflexivity.
Qed.

(** ** Queries by index *)

Lemma evaluate_zones_length zs d n :
  length (fst (evaluate_zones zs d n)) = length zs.
Proof.
  induction zs as [|z zs IH]; simpl; [reflexivity|].
  destruct (evaluate z d n) as [z' c].
  destruct (evaluate_zones zs d n) as [zs' cs]. simpl in *. lia.
Qed.

Lemma performUpdate_length m e :
  length (zones (fst (performUpdate m e))) = length (zones m).
Proof.
  unfold performUpdate. destruct (_ >=? _); [|reflexivity].
  destruct (data_ready e); [|reflexivity]. simpl.
  pose proof (evaluate_zones_length (zones m) (sample e) (certainty_factor m)).
  destruct (evaluate_zones _ _ _) as [zs cs]. assumption.
Qed.

(** C8. For an index not less than the zone count, [isObjectInZone]
    returns false and [getZone] returns the null pointer. For an index in
    range, [isObjectInZone] returns the [object_present] flag that the
    zone at that index has after [performUpdate], and [getZone] returns a
    pointer to that slot. In both cases [isObjectInZone] first does what
    [performUpdate] does, and neither function indexes the vector out of
    bounds. *)
Theorem C8_index_tolerance (m : VL53L1XZoneMonitor) (i : nat) (e : Env) :
  fst (isObjectInZone m i e) = performUpdate m e
  ∧ ((getZoneCount m <= i)%nat →
       snd (isObjectInZone m i e) = Returns false
       ∧ getZone m i = Returns nullptr)
  ∧ ((i < getZoneCount m)%nat →
       (∃ z, zones (fst (performUpdate m e)) !! i = Some z
             ∧ snd (isObjectInZone m i e) = Returns (object_present z))
       ∧ getZone m i = Returns (zone_at i)
       ∧ deref m (zone_at i) = zones m !! i)
  ∧ snd (isObjectInZone m i e) ≠ OutOfBounds
  ∧ getZone m i ≠ OutOfBounds.
Proof.
  unfold getZoneCount, isObjectInZone, getZone, at_index.
  pose proof (performUpdate_length m e) as L.
  destruct (performUpdate m e) as [m' effs]. simpl in L.
  destruct (Nat.ltb_spec i (length (zones m))) as [Hi|Hi].
  - rewrite (lt_length_true (zones m') i) by lia.
    destruct (lookup_lt_is_Some_2 (zones m') i) as [z' Hz']; [lia|].
    destruct (lookup_lt_is_Some_2 (zones m) i) as [z Hz]; [lia|].
    rewrite Hz', Hz. simpl. repeat split; try discriminate; try lia;
      try exact Hz.
    exists z'. split; [exact Hz'|reflexivity].
  - rewrite (ge_length_false (zones m') i) by lia. simpl.
    repeat split; try discriminate; lia.
Qed.

(** ** The tick *)

(** C5 (amended). [performUpdate] reads the clock, [T]. If
    [T - last_update_time < update_interval_ms] in [uint32_t] arithmetic it
    returns with the monitor unchanged and no access to the sensor.
    Otherwise it reads the clock a second time and stores that reading in
    [last_update_time] (which is [T] when the clock has not moved in
    between), and only then asks the sensor whether a sample is ready; if
    none is, it returns with nothing but [last_update_time] changed, so no
    zone has changed. *)
Theorem C5_performUpdate (m : VL53L1XZoneMonitor) (e : Env) :
  let T := millis (wall_call e) in
  let T' := millis (wall_stamp e) in
  (sub_u32 T (last_update_time m) < update_interval_ms m →
     performUpdate m e = (m, [Millis T]))
  ∧ (update_interval_ms m <= sub_u32 T (last_update_time m) →
       last_update_time (fst (performUpdate m e)) = T'
       ∧ (wall_stamp e = wall_call e →
            last_update_time (fst (performUpdate m e)) = T)
       ∧ (∃ rest,
            snd (performUpdate m e) =
              Millis T :: Millis T' :: SensorDataReady (data_ready e) :: rest)
       ∧ (data_ready e = false →
            performUpdate m e =
              (set_last_update_time m T',
               [Millis T; Millis T'; SensorDataReady false])
            ∧ zones (fst (performUpdate m e)) = zones m)).
Proof.
  intros T T'. unfold performUpdate. fold T T'. rewrite Z.geb_leb.
  destruct (Z.leb_spec (update_interval_ms m) (sub_u32 T (last_update_time m)))
    as [H|H]; (split; intros H'; [try lia|try lia]); [|reflexivity].
  destruct (data_ready e) eqn:R.
  - cbv zeta. simpl zones.
    destruct (evaluate_zones _ _ _) as [zs calls]. simpl.
    repeat split; try discriminate.
    + intros E. subst T T'. rewrite E. reflexivity.
    + eexists. reflexivity.
  - simpl. repeat split.
    + intros E. subst T T'. rewrite E. reflexivity.
    + eexists. reflexivity.
Qed.

(** ** Certainty 0 and certainty 1 *)

Lemma incr_small c : 0 <= c < SIZE_MAX → incr c = c + 1.
Proof. intros H. unfold incr, to_size_t. apply Z.mod_small. lia. Qed.

Lemma incr_range c : 0 <= SIZE_MAX → 0 <= incr c <= SIZE_MAX.
Proof.
  intros H. unfold incr, to_size_t.
  pose proof (Z.mod_pos_bound (c + 1) (SIZE_MAX + 1)). lia.
Qed.

Lemma evaluate_certainty_0_1 z d :
  wrap_free z → evaluate z d 0 = evaluate z d 1.
Proof.
  intros [Hin Hout]. unfold evaluate.
  destruct (in_zone z d); simpl; rewrite !Z.geb_leb.
  - destruct (object_present z); simpl.
    + rewrite !andb_false_r. reflexivity.
    + rewrite incr_small by auto.
      destruct (Z.leb_spec 0 (in_zone_count z + 1));
        destruct (Z.leb_spec 1 (in_zone_count z + 1));
        try reflexivity; specialize (Hin eq_refl); lia.
  - destruct (object_present z); simpl.
    + rewrite incr_small by auto.
      destruct (Z.leb_spec 0 (out_zone_count z + 1));
        destruct (Z.leb_spec 1 (out_zone_count z + 1));
        try reflexivity; specialize (Hout eq_refl); lia.
    + rewrite !andb_false_r. reflexivity.
Qed.

Lemma evaluate_wrap_free z d n :
  0 < SIZE_MAX → 0 <= n <= SIZE_MAX → wrap_free (fst (evaluate z d n)).
Proof.
  intros HS Hn. unfold evaluate, wrap_free.
  destruct (in_zone z d); simpl; rewrite Z.geb_leb.
  - pose proof (incr_range (in_zone_count z)).
    destruct (Z.leb_spec n (incr (in_zone_count z)));
      destruct (object_present z) eqn:P; simpl; rewrite ?P;
      split; intros; try discriminate; lia.
  - pose proof (incr_range (out_zone_count z)).
    destruct (Z.leb_spec n (incr (out_zone_count z)));
      destruct (object_present z) eqn:P; simpl; rewrite ?P;
      split; intros; try discriminate; lia.
Qed.

Lemma evaluate_zones_certainty_0_1 zs d :
  Forall wrap_free zs → evaluate_zones zs d 0 = evaluate_zones zs d 1.
Proof.
  induction 1 as [|z zs Hz _ IH]; simpl; [reflexivity|].
  rewrite (evaluate_certainty_0_1 z d Hz), IH. reflexivity.
Qed.

(** C10 (amended). [evaluate(d, 0)] gives the same state and the same
    callback invocations as [evaluate(d, 1)] on every zone state in which
    the counter that can still flip the flag is below [SIZE_MAX]
    ([in_zone_count] when [object_present] is false, [out_zone_count] when
    it is true), since there the incremented counter is at least 1. Every
    zone of a monitor built by the constructor and driven by any sequence
    of public operations is in such a state, so that for such a monitor a
    tick after [setCertaintyFactor(0)] changes the zones and calls the
    callbacks exactly as a tick after [setCertaintyFactor(1)]. *)
Theorem C10_certainty_zero (HS : 65535 <= SIZE_MAX) :
  (∀ z d, wrap_free z → evaluate z d 0 = evaluate z d 1)
  ∧ (∀ interval_ms certainty trace e,
       0 <= certainty <= SIZE_MAX → size_t_args trace →
       let m := fst (run (VL53L1XZoneMonitor_new interval_ms certainty) trace)
       in
       Forall wrap_free (zones m)
       ∧ zones (fst (performUpdate (setCertaintyFactor m 0) e))
         = zones (fst (performUpdate (setCertaintyFactor m 1) e))
       ∧ last_update_time (fst (performUpdate (setCertaintyFactor m 0) e))
         = last_update_time (fst (performUpdate (setCertaintyFactor m 1) e))
       ∧ snd (performUpdate (setCertaintyFactor m 0) e)
         = snd (performUpdate (setCertaintyFactor m 1) e)).
Proof.
  split; [exact evaluate_certainty_0_1|].
  intros interval_ms certainty trace e Hc Ht m.
  assert (Hm : monitor_inv wrap_free (λ n, 0 <= n <= SIZE_MAX) m).
  { apply run_inv.
    - intros; split; simpl; intros; try discriminate; lia.
    - intros; apply evaluate_wrap_free; [lia|assumption].
    - intros z v Hz; exact Hz.
    - intros z v Hz; exact Hz.
    - unfold size_t_args in Ht. eapply Forall_impl; [exact Ht|].
      intros [[] ?]; simpl; auto.
    - split; [constructor|exact Hc]. }
  destruct Hm as [Hz _]. split; [exact Hz|].
  unfold performUpdate, setCertaintyFactor; simpl.
  destruct (_ >=? _); [|repeat split].
  destruct (data_ready e); [|repeat split].
  rewrite (evaluate_zones_certainty_0_1 _ _ Hz).
  destruct (evaluate_zones _ _ _) as [zs cs]. repeat split.
Qed.

(** ** No re-fire *)

Lemma evaluate_side z d n b :
  in_zone z d = b →
  ∃ z' cs,
    evaluate z d n = (z', cs)
    ∧ same_setup z z'
    ∧ streak b z' = incr (streak b z)
    ∧ streak (negb b) z' = 0
    ∧ (if (incr (streak b z) >=? n) && Bool.eqb (object_present z) (negb b)
       then object_present z' = b ∧ cs = fire b z d
       else object_present z' = object_present z ∧ cs = []).
Proof.
  intros I. unfold same_setup. destruct b.
  - rewrite (evaluate_inside _ _ _ I). cbv zeta. simpl streak.
    destruct (incr (in_zone_count z) >=? n);
      destruct (object_present z); simpl; eexists _, _;
      repeat split; reflexivity.
  - rewrite (evaluate_outside _ _ _ I). cbv zeta. simpl streak.
    destruct (incr (out_zone_count z) >=? n);
      destruct (object_present z); simpl; eexists _, _;
      repeat split; reflexivity.
Qed.

(** What one call can do to the flag and to the callbacks. *)
Lemma evaluate_cases z d n :
  ∃ z' cs,
    evaluate z d n = (z', cs)
    ∧ same_setup z z'
    ∧ ((cs = [] ∧ object_present z' = object_present z)
       ∨ (∃ b, object_present z = negb b ∧ object_present z' = b
               ∧ cs = fire b z d)).
Proof.
  destruct (evaluate_side z d n (in_zone z d) eq_refl)
    as (z' & cs & E & F & _ & _ & H).
  exists z', cs. split; [exact E|]. split; [exact F|].
  destruct (_ && _) eqn:C.
  - right. exists (in_zone z d). apply andb_true_iff in C as [_ C].
    apply Bool.eqb_prop in C. tauto.
  - left. tauto.
Qed.

Lemma no_repeat_feed_each same b calls :
  (∀ c, same c = Bool.eqb (is_enter c) b) →
  ∀ z pending,
    (pending = true → object_present z = b) →
    is_Some (if b then on_exit z else on_enter z) →
    no_repeat same pending (snd (feed_each z calls)) = true.
Proof.
  intros Hsame. induction calls as [|[d n] rest IH]; intros z pending Hp Hset;
    simpl; [reflexivity|].
  destruct (evaluate_cases z d n) as (z1 & c1 & E & F & H). rewrite E.
  destruct F as (_ & _ & Fe & Fx).
  assert (Hset1 : is_Some (if b then on_exit z1 else on_enter z1))
    by (rewrite Fe, Fx; exact Hset).
  destruct (feed_each z1 rest) as [z2 c2] eqn:E2. simpl.
  destruct H as [[-> Hz]|(b' & Hz & Hz1 & ->)].
  - simpl. specialize (IH z1 pending). rewrite E2 in IH. apply IH; [|exact Hset1].
    rewrite Hz. exact Hp.
  - destruct (Bool.bool_dec b' b) as [->|Hne].
    + (* the transition to [b]: the invocation, if any, is of kind [same] *)
      assert (Hpend : pending = false).
      { destruct pending; [|reflexivity]. specialize (Hp eq_refl).
        rewrite Hp in Hz. destruct b; discriminate. }
      subst pending.
      assert (Hc : fire b z d = [] ∨ ∃ c, fire b z d = [c] ∧ same c = true).
      { unfold fire, call_if_set.
        destruct b; [destruct (on_enter z)|destruct (on_exit z)]; auto;
          right; eexists; (split; [reflexivity|]); rewrite Hsame;
          reflexivity. }
      destruct Hc as [->|(c & -> & Hc)]; simpl.
      * specialize (IH z1 false). rewrite E2 in IH.
        apply IH; [discriminate|auto].
      * rewrite Hc. simpl.
        specialize (IH z1 true). rewrite E2 in IH. apply IH; auto.
    + (* the transition away from [b]: its callback is set *)
      assert (b' = negb b) as -> by (destruct b', b; simpl; congruence).
      destruct b; unfold fire; simpl negb; cbv iota;
        destruct Hset as [f Hf]; rewrite Hf; simpl; rewrite Hsame; simpl;
        specialize (IH z1 false); rewrite E2 in IH;
        (apply IH; [discriminate|auto]).
Qed.

(** C4 (amended). For every zone state and every sequence of [evaluate]
    calls, each with its own certainty: if [on_exit] is set, no two
    [on_enter] invocations occur without an [on_exit] invocation in
    between, and if [on_enter] is set, no two [on_exit] invocations occur
    without an [on_enter] invocation in between. *)
Theorem C4_no_refire (z : ZoneObserver) (calls : list (Z * Z)) :
  (is_Some (on_exit z) →
     no_repeat is_enter false (snd (feed_each z calls)) = true)
  ∧ (is_Some (on_enter z) →
       no_repeat is_exit false (snd (feed_each z calls)) = true).
Proof.
  split; intros H.
  - apply (no_repeat_feed_each is_enter true);
      [intros c; destruct (is_enter c); reflexivity|discriminate|exact H].
  - apply (no_repeat_feed_each is_exit false);
      [intros c; unfold is_exit; destruct (is_enter c); reflexivity
      |discriminate|exact H].
Qed.

(** ** Hysteresis *)

Lemma feed_app n l1 l2 z :
  feed n z (l1 ++ l2) =
    let '(z1, c1) := feed n z l1 in
    let '(z2, c2) := feed n z1 l2 in
    (z2, c1 ++ c2).
Proof.
  revert z. induction l1 as [|d l1 IH]; intros z; simpl.
  - destruct (feed n z l2); reflexivity.
  - destruct (evaluate z d n) as [z1 c1]. rewrite IH.
    destruct (feed n z1 l1) as [z2 c2]. destruct (feed n z2 l2) as [z3 c3].
    rewrite app_assoc. reflexivity.
Qed.

Lemma same_setup_refl z : same_setup z z.
Proof. repeat split. Qed.

Lemma same_setup_trans z1 z2 z3 :
  same_setup z1 z2 → same_setup z2 z3 → same_setup z1 z3.
Proof. unfold same_setup. intuition congruence. Qed.

Lemma in_zone_same_setup z z' d : same_setup z z' → in_zone z' d = in_zone z d.
Proof. intros (H1 & H2 & _). unfold in_zone. rewrite H1, H2. reflexivity. Qed.

Lemma fire_same_setup z z' b d : same_setup z z' → fire b z' d = fire b z d.
Proof. intros (_ & _ & H1 & H2). unfold fire. rewrite H1, H2. reflexivity. Qed.

Lemma side_same_setup z z' b ds :
  same_setup z z' →
  Forall (λ d, in_zone z d = b) ds → Forall (λ d, in_zone z' d = b) ds.
Proof.
  intros S H. eapply Forall_impl; [exact H|].
  intros d <-. apply in_zone_same_setup, S.
Qed.

(** Samples on the side the zone is already on: nothing is called. *)
Lemma feed_same_side n b ds :
  ∀ z, object_present z = b → Forall (λ d, in_zone z d = b) ds →
  ∃ z', feed n z ds = (z', [])
        ∧ same_setup z z' ∧ object_present z' = b
        ∧ (ds ≠ [] → streak (negb b) z' = 0).
Proof.
  induction ds as [|d ds IH]; intros z Hp HF; simpl.
  - exists z. repeat split; [assumption|congruence].
  - apply Forall_cons in HF as [Hd HF].
    destruct (evaluate_side z d n b Hd) as (z1 & c1 & E & S & _ & H0 & H).
    rewrite Hp in H. replace (Bool.eqb b (negb b)) with false in H
      by (destruct b; reflexivity).
    rewrite andb_false_r in H. destruct H as [Hp1 ->]. rewrite E.
    destruct (IH z1) as (z' & E' & S' & Hp' & H0');
      [congruence|eapply side_same_setup; eauto|].
    rewrite E'. exists z'. split; [reflexivity|].
    split; [eapply same_setup_trans; eauto|]. split; [assumption|].
    intros _. destruct ds; [|apply H0'; discriminate].
    simpl in E'. congruence.
Qed.

(** Samples on the side opposite to the state of the zone, with the counter
    of that side below the certainty: the callback of the side is called
    once, by the sample that brings the counter to the certainty, if the
    run is long enough for that, and not at all otherwise. *)
Lemma feed_opposite_side n b ds :
  n <= SIZE_MAX →
  ∀ z, object_present z = negb b → 0 <= streak b z < n →
  Forall (λ d, in_zone z d = b) ds →
  ∃ z' cs, feed n z ds = (z', cs)
    ∧ same_setup z z'
    ∧ (ds ≠ [] → streak (negb b) z' = 0)
    ∧ (if Z.of_nat (length ds) + streak b z >=? n then
         object_present z' = b ∧ ∃ d, cs = fire b z d
       else
         cs = [] ∧ object_present z' = negb b
         ∧ streak b z' = streak b z + Z.of_nat (length ds)).
Proof.
  intros Hn. induction ds as [|d ds IH]; intros z Hp Hc HF.
  - exists z, []. split; [reflexivity|]. split; [apply same_setup_refl|].
    split; [congruence|]. rewrite Z.geb_leb. simpl length.
    destruct (Z.leb_spec n (Z.of_nat 0 + streak b z)); [lia|].
    repeat split; [assumption|lia].
  - apply Forall_cons in HF as [Hd HF].
    destruct (evaluate_side z d n b Hd) as (z1 & c1 & E & S & H1 & H0 & H).
    rewrite incr_small in H, H1 by lia.
    rewrite Hp, Bool.eqb_reflx, andb_true_r, Z.geb_leb in H.
    simpl feed. rewrite E. rewrite Z.geb_leb.
    destruct (Z.leb_spec n (streak b z + 1)) as [Hfire|Hwait].
    + destruct H as [Hp1 ->].
      destruct (feed_same_side n b ds z1 Hp1) as (z' & E' & S' & Hp' & H0');
        [eapply side_same_setup; eauto|].
      rewrite E'. exists z', (fire b z d ++ []).
      split; [reflexivity|]. split; [eapply same_setup_trans; eauto|].
      split.
      * intros _. destruct ds; [|apply H0'; discriminate].
        simpl in E'. congruence.
      * destruct (Z.leb_spec n (Z.of_nat (length (d :: ds)) + streak b z));
          [|simpl length in *; lia].
        split; [assumption|]. exists d. apply app_nil_r.
    + destruct H as [Hp1 ->].
      destruct (IH z1) as (z' & cs & E' & S' & H0' & H');
        [congruence|lia|eapply side_same_setup; eauto|].
      rewrite E'. exists z', cs.
      split; [reflexivity|]. split; [eapply same_setup_trans; eauto|].
      split.
      * intros _. destruct ds; [|apply H0'; discriminate].
        simpl in E'. congruence.
      * rewrite Z.geb_leb, H1 in H'.
        replace (Z.of_nat (length (d :: ds)) + streak b z)
          with (Z.of_nat (length ds) + (streak b z + 1))
          by (simpl length; lia).
        destruct (Z.leb_spec n (Z.of_nat (length ds) + (streak b z + 1))).
        -- destruct H' as [Hp' [d' ->]]. split; [assumption|].
           exists d'. apply fire_same_setup, S.
        -- destruct H' as (-> & Hp' & Hs').
           repeat split; [congruence|simpl length; lia].
Qed.

Lemma count_side_app side cs1 cs2 :
  count_side side (cs1 ++ cs2)
  = (count_side side cs1 + count_side side cs2)%nat.
Proof.
  unfold count_side, count_enter, count_exit.
  destruct side; rewrite List.filter_app, length_app; reflexivity.
Qed.

Lemma count_side_fire side b z d :
  count_side side (fire b z d)
  = if Bool.eqb b side && callback_set side z then 1%nat else 0%nat.
Proof.
  unfold count_side, fire, callback_set, call_if_set.
  destruct side, b; simpl;
    try destruct (on_enter z); try destruct (on_exit z); reflexivity.
Qed.

(** One maximal run, fed to a zone whose counter of that side is 0. *)
Lemma feed_run n side b ds z :
  1 <= n <= SIZE_MAX →
  Forall (λ d, in_zone z d = b) ds → ds ≠ [] → streak b z = 0 →
  ∃ z' cs, feed n z ds = (z', cs)
    ∧ same_setup z z'
    ∧ streak (negb b) z' = 0
    ∧ count_side side cs
      = if Bool.eqb b side && (Z.of_nat (length ds) >=? n)
           && Bool.eqb (object_present z) (negb side)
        then (if callback_set side z then 1%nat else 0%nat)
        else 0%nat.
Proof.
  intros Hn HF Hne H0.
  destruct (Bool.bool_dec (object_present z) b) as [Hp|Hp].
  - destruct (feed_same_side n b ds z Hp HF) as (z' & E & S & _ & H0').
    exists z', []. split; [exact E|]. split; [exact S|].
    split; [auto|]. rewrite Hp.
    destruct side, b; simpl; rewrite ?andb_false_r; reflexivity.
  - assert (Hp' : object_present z = negb b)
      by (destruct (object_present z), b; simpl; congruence).
    destruct (feed_opposite_side n b ds (proj2 Hn) z Hp') as
      (z' & cs & E & S & H0' & H); [lia|exact HF|].
    exists z', cs. split; [exact E|]. split; [exact S|].
    split; [auto|]. rewrite H0, Z.add_0_r in H. rewrite Hp'.
    destruct (Z.of_nat (length ds) >=? n).
    + destruct H as [_ [d ->]]. rewrite count_side_fire.
      destruct side, b; reflexivity.
    + destruct H as [-> _]. rewrite andb_false_r.
      destruct side; reflexivity.
Qed.

Lemma runs_concat inside samples :
  concat (map snd (runs inside samples)) = samples.
Proof.
  induction samples as [|d rest IH]; simpl; [reflexivity|].
  destruct (runs inside rest) as [|[b ds] rs]; simpl in *.
  - rewrite <- IH. reflexivity.
  - destruct (Bool.eqb (inside d) b); simpl; rewrite <- IH; reflexivity.
Qed.

Lemma runs_alternating inside samples :
  alternating inside (runs inside samples).
Proof.
  induction samples as [|d rest IH]; simpl; [exact I|].
  destruct (runs inside rest) as [|[b ds] rs]; simpl in *.
  - repeat split; [discriminate|]. constructor; [reflexivity|constructor].
  - destruct IH as (Hne & HF & Hnext & Hrest).
    destruct (Bool.eqb (inside d) b) eqn:E; simpl.
    + apply Bool.eqb_prop in E. repeat split; try assumption; [discriminate|].
      constructor; assumption.
    + apply Bool.eqb_false_iff in E.
      repeat split; try assumption; [discriminate| |].
      * constructor; [reflexivity|constructor].
      * destruct (inside d), b; simpl; congruence.
Qed.

Lemma alternating_same_setup z z' rs :
  same_setup z z' → alternating (in_zone z) rs → alternating (in_zone z') rs.
Proof.
  intros S. induction rs as [|[b ds] rest IH]; simpl; [auto|].
  intros (Hne & HF & Hnext & Hrest). repeat split; auto.
  eapply side_same_setup; eauto.
Qed.

Lemma callback_set_same_setup side z z' :
  same_setup z z' → callback_set side z' = callback_set side z.
Proof.
  intros (_ & _ & H1 & H2). unfold callback_set. rewrite H1, H2. reflexivity.
Qed.

(** The invocations of the callback of [side], run by run. *)
Lemma count_side_runs n side rs :
  1 <= n <= SIZE_MAX →
  ∀ z, alternating (in_zone z) rs →
  match rs with
  | (b, _) :: _ => streak b z = 0
  | [] => True
  end →
  count_side side (snd (feed n z (concat (map snd rs))))
  = if callback_set side z then count_runs n side z rs else 0%nat.
Proof.
  intros Hn. induction rs as [|[b ds] rest IH]; intros z Halt H0; simpl.
  - destruct side, (callback_set _ z); reflexivity.
  - destruct Halt as (Hne & HF & Hnext & Hrest).
    rewrite feed_app.
    destruct (feed_run n side b ds z Hn HF Hne H0)
      as (z1 & c1 & E & S & H0' & Hc).
    rewrite E. simpl fst.
    specialize (IH z1 (alternating_same_setup _ _ _ S Hrest)).
    destruct (feed n z1 (concat (map snd rest))) as [z2 c2]. simpl in IH.
    simpl snd. rewrite count_side_app, Hc, IH.
    + rewrite (callback_set_same_setup _ _ _ S).
      destruct (callback_set side z); [reflexivity|].
      destruct (_ && _); reflexivity.
    + destruct rest as [|[b' ds'] rest']; [exact I|]. subst b'. exact H0'.
Qed.

(** C2 (amended). For a zone as constructed (Empty, both counters 0), every
    finite sequence of samples and every fixed certainty [n] with
    [1 <= n <= SIZE_MAX]: if [on_enter] is set, the number of its
    invocations is the number of maximal runs of consecutive in-range
    samples that have at least [n] samples and begin with the zone Empty;
    if [on_exit] is set, the number of its invocations is the number of
    maximal runs of consecutive out-of-range samples that have at least [n]
    samples and begin with the zone Occupied. A callback that is not set
    is not invoked. *)
Theorem C2_hysteresis (min max : Z) (f g : option fnptr) (n : Z)
    (samples : list Z) :
  1 <= n <= SIZE_MAX →
  let z := ZoneObserver_new min max f g in
  let cs := snd (feed n z samples) in
  count_enter cs = match f with
                   | Some _ => entering_runs n z samples
                   | None => 0%nat
                   end
  ∧ count_exit cs = match g with
                    | Some _ => leaving_runs n z samples
                    | None => 0%nat
                    end.
Proof.
  intros Hn z cs. subst cs. unfold entering_runs, leaving_runs.
  pose proof (runs_alternating (in_zone z) samples) as Halt.
  assert (H0 : match runs (in_zone z) samples with
               | (b, _) :: _ => streak b z = 0
               | [] => True
               end).
  { destruct (runs (in_zone z) samples) as [|[[] ?] ?]; reflexivity || exact I. }
  pose proof (count_side_runs n true _ Hn z Halt H0) as He.
  pose proof (count_side_runs n false _ Hn z Halt H0) as Hx.
  rewrite runs_concat in He, Hx. unfold count_side, callback_set in He, Hx.
  simpl in He, Hx. split; [destruct f|destruct g]; assumption.
Qed.

(** ** Rate of the ticks *)

Lemma spaced_filter gap p times :
  spaced gap times → spaced gap (List.filter p times).
Proof.
  induction times as [|t rest IH]; simpl; [auto|].
  intros [Ht Hrest]. destruct (p t); simpl; [|auto].
  split; [|auto]. apply Forall_forall. intros u Hu.
  rewrite Forall_forall in Ht. apply Ht.
  apply list_elem_of_In in Hu. apply List.filter_In in Hu as [Hu _].
  apply list_elem_of_In, Hu.
Qed.

(** Times that are [gap] apart and lie in [[a, b]] are few. *)
Lemma spaced_length gap times :
  spaced gap times →
  ∀ a b, Forall (λ t, a <= t <= b) times →
  times = [] ∨ Z.of_nat (length times) * gap <= b - a + gap.
Proof.
  induction times as [|t rest IH]; [auto|].
  intros [Ht Hrest] a b Hab. right.
  apply Forall_cons in Hab as [Hta Hab].
  destruct (IH Hrest (t + gap) b) as [->|Hlen].
  - apply Forall_forall. intros u Hu.
    rewrite Forall_forall in Ht, Hab.
    specialize (Ht u Hu). specialize (Hab u Hu). lia.
  - simpl. lia.
  - simpl length. lia.
Qed.

Lemma filter_is_read_callbacks calls :
  List.filter is_read (map Callback calls) = [].
Proof. induction calls; simpl; auto. Qed.

(** A tick either leaves [last_update_time] alone and reads no sample, or
    finds the interval elapsed, stores the second clock reading and reads
    at most one sample. *)
Lemma performUpdate_tick m e :
  ∃ m1 effs,
    performUpdate m e = (m1, effs)
    ∧ update_interval_ms m1 = update_interval_ms m
    ∧ ((last_update_time m1 = last_update_time m
        ∧ List.filter is_read effs = [])
       ∨ (update_interval_ms m
            <= sub_u32 (millis (wall_call e)) (last_update_time m)
          ∧ last_update_time m1 = millis (wall_stamp e)
          ∧ (length (List.filter is_read effs) <= 1)%nat)).
Proof.
  unfold performUpdate. rewrite Z.geb_leb.
  destruct (Z.leb_spec (update_interval_ms m)
              (sub_u32 (millis (wall_call e)) (last_update_time m))) as [H|H].
  - destruct (data_ready e).
    + cbv zeta. destruct (evaluate_zones _ _ _) as [zs calls].
      eexists _, _. split; [reflexivity|]. split; [reflexivity|].
      right. split; [exact H|]. split; [reflexivity|].
      simpl. rewrite filter_is_read_callbacks. simpl. lia.
    + eexists _, _. split; [reflexivity|]. split; [reflexivity|].
      right. split; [exact H|]. split; [reflexivity|]. simpl. lia.
  - eexists _, _. split; [reflexivity|]. split; [reflexivity|].
    left. split; reflexivity.
Qed.

Lemma handle_not_tick m r e :
  ticks r = false →
  update_interval_ms (fst (handle m r e)) = update_interval_ms m
  ∧ last_update_time (fst (handle m r e)) = last_update_time m.
Proof.
  destruct r; simpl; try discriminate; intros _; try (split; reflexivity).
  - unfold updateZone. destruct (_ <? _)%nat; [|split; reflexivity].
    destruct (negb _); destruct (negb _); split; reflexivity.
  - unfold deleteZone. destruct (_ <? _)%nat; split; reflexivity.
Qed.

Lemma handle_tick m r e :
  ticks r = true → handle m r e = performUpdate m e.
Proof.
  destruct r; simpl; try discriminate; intros _; [reflexivity|].
  unfold isObjectInZone. destruct (performUpdate m e) as [m1 effs].
  destruct (_ <? _)%nat; reflexivity.
Qed.

Lemma clock_monotone_weaken trace from from' :
  from <= from' → clock_monotone from' trace → clock_monotone from trace.
Proof.
  destruct trace as [|[r e] rest]; simpl; [auto|].
  intros H (H1 & H2 & H3). repeat split; [lia|lia|exact H3].
Qed.

(** The interval has elapsed on the 32-bit clock only if it has elapsed
    on the wall clock. *)
Lemma elapsed_u32 interval now last :
  last <= now → interval <= sub_u32 (millis now) (millis last) →
  last + interval <= now.
Proof.
  unfold sub_u32, millis. intros Hle H.
  rewrite <- Zminus_mod in H.
  pose proof (Z.mod_le (now - last) (2 ^ 32)). lia.
Qed.

Lemma tick_reads_cons r e effs h :
  tick_reads ((r, e, effs) :: h) =
    (if ticks r then map (λ _, wall_stamp e) (List.filter is_read effs)
     else [])
    ++ tick_reads h.
Proof.
  unfold tick_reads, sensor_reads, access_time. simpl.
  destruct (ticks r) eqn:T; simpl; rewrite ?T; reflexivity.
Qed.

(** The sample reads of the ticks are [update_interval_ms] apart, the
    first one that much after the time [last_update_time] stands for. *)
Lemma tick_reads_spaced trace :
  ∀ m last,
    last_update_time m = millis last → clock_monotone last trace →
    Forall (λ t, last + update_interval_ms m <= t)
      (tick_reads (snd (run m trace)))
    ∧ spaced (update_interval_ms m) (tick_reads (snd (run m trace))).
Proof.
  induction trace as [|[r e] rest IH]; intros m last Hlast Hmono; simpl.
  - split; [constructor|exact I].
  - destruct Hmono as (Hcall & Hstamp & Hrest).
    destruct (handle m r e) as [m1 effs] eqn:E.
    destruct (run m1 rest) as [m2 h] eqn:R. simpl.
    rewrite tick_reads_cons.
    destruct (ticks r) eqn:T.
    + rewrite (handle_tick _ _ _ T) in E.
      destruct (performUpdate_tick m e) as (m1' & effs' & E' & Hint & Hcase).
      rewrite E in E'. inversion E'; subst m1' effs'; clear E'.
      destruct Hcase as [[Hsame Hnone]|(Hgate & Hnew & Hone)].
      * rewrite Hnone. simpl.
        specialize (IH m1 last). rewrite R, Hint in IH. simpl in IH.
        apply IH; [congruence|].
        eapply clock_monotone_weaken; [|exact Hrest]. lia.
      * rewrite Hlast in Hgate. apply elapsed_u32 in Hgate; [|exact Hcall].
        specialize (IH m1 (wall_stamp e) Hnew Hrest).
        rewrite R, Hint in IH. simpl in IH. destruct IH as [IH1 IH2].
        assert (Hlater : Forall (λ t, last + update_interval_ms m <= t)
                           (tick_reads h)).
        { eapply Forall_impl; [exact IH1|]. simpl. intros t Ht. lia. }
        destruct (List.filter is_read effs) as [|x [|y l]]; simpl in *;
          [split; assumption| |lia].
        split; [constructor; [lia|exact Hlater]|]. split; assumption.
    + destruct (handle_not_tick m r e T) as [Hint Hsame].
      rewrite E in Hint, Hsame. simpl in Hint, Hsame. simpl.
      specialize (IH m1 last). rewrite R, Hint in IH. simpl in IH.
      apply IH; [congruence|].
      eapply clock_monotone_weaken; [|exact Hrest]. lia.
Qed.

Lemma filter_window a dt times :
  Forall (λ t, a <= t <= a + dt)
    (List.filter (λ t, (a <=? t) && (t <=? a + dt)) times).
Proof.
  apply Forall_forall. intros t Ht. apply list_elem_of_In in Ht.
  apply List.filter_In in Ht as [_ Ht].
  apply andb_true_iff in Ht as [H1 H2]. lia.
Qed.

(** C9 (amended). Take a monitor built by the constructor with
    [update_interval_ms > 0], any sequence of public operations on it
    with a wall clock that never goes back, and date the sample read of a
    tick ([update] or [isObjectInZone]) by the clock reading the tick
    stores in [last_update_time]. Then the sample reads made by ticks in
    any wall-clock interval [[a, a + dt]] number at most
    [⌈dt / update_interval_ms⌉ + 1], also when [millis()] rolls over.
    The reads made by [getDistance] are not limited by the monitor. *)
Theorem C9_tick_rate_limit (interval_ms certainty : Z)
    (trace : list (request * Env)) (a dt : Z) :
  0 < interval_ms → 0 <= dt → clock_monotone 0 trace →
  reads_within a dt
    (tick_reads (snd (run (VL53L1XZoneMonitor_new interval_ms certainty)
                        trace)))
  <= ceil_div dt interval_ms + 1.
Proof.
  intros Hi Hdt Hmono.
  destruct (tick_reads_spaced trace
              (VL53L1XZoneMonitor_new interval_ms certainty) 0 eq_refl Hmono)
    as [_ Hsp]. simpl in Hsp.
  unfold reads_within, ceil_div.
  set (w := List.filter _ _).
  assert (Hw : spaced interval_ms w) by (apply spaced_filter, Hsp).
  destruct (spaced_length _ _ Hw a (a + dt) (filter_window a dt _))
    as [->|Hlen].
  - simpl. pose proof (Z.div_pos (dt + interval_ms - 1) interval_ms). lia.
  - assert (Z.of_nat (length w) - 1 <= (dt + interval_ms - 1) / interval_ms);
      [|lia].
    apply Z.div_le_lower_bound; [exact Hi|]. nia.
Qed.

(** ** Further properties of the zone state machine *)

Lemma in_zone_empty_window z d :
  max_distance z < min_distance z → in_zone z d = false.
Proof.
  intros H. unfold in_zone. rewrite Z.geb_leb.
  destruct (Z.leb_spec (min_distance z) d);
    destruct (Z.leb_spec d (max_distance z)); try reflexivity; lia.
Qed.

(** X1. A zone whose window has [min_distance > max_distance] is never
    entered: from Empty, whatever the samples and the certainties, it
    stays Empty and no callback is invoked. *)
Theorem X1_empty_window_never_entered (z : ZoneObserver)
    (calls : list (Z * Z)) :
  max_distance z < min_distance z → object_present z = false →
  object_present (fst (feed_each z calls)) = false
  ∧ snd (feed_each z calls) = [].
Proof.
  revert z. induction calls as [|[d n] rest IH]; intros z Hw Hp; simpl;
    [split; [exact Hp|reflexivity]|].
  rewrite (evaluate_outside z d n (in_zone_empty_window z d Hw)).
  cbv zeta. rewrite Hp, andb_false_r.
  match goal with
  | |- context [feed_each ?z1 rest] =>
      destruct (IH z1 Hw eq_refl) as [IH1 IH2]; destruct (feed_each z1 rest)
  end.
  simpl in *. split; assumption.
Qed.

(** X2. With certainty 1 an Empty zone whose [in_zone_count] is below
    [SIZE_MAX] becomes Occupied on the first in-range sample, and
    [on_enter] is invoked with that sample if it is set. *)
Theorem X2_certainty_one_first_sample (z : ZoneObserver) (d : Z) :
  object_present z = false → in_zone z d = true →
  0 <= in_zone_count z < SIZE_MAX →
  evaluate z d 1 =
    (mkZoneObserver (min_distance z) (max_distance z) true
       (on_enter z) (on_exit z) (in_zone_count z + 1) 0,
     match on_enter z with
     | Some f => [OnEnter f d]
     | None => []
     end).
Proof.
  intros Hp Hin Hc. rewrite (evaluate_inside z d 1 Hin). cbv zeta.
  rewrite (incr_small _ Hc), Hp, Z.geb_leb.
  destruct (Z.leb_spec 1 (in_zone_count z + 1)); [reflexivity|lia].
Qed.

(** X3. The fan-out of a sample goes through the zones in the order of
    the vector: the zones of a prefix are evaluated, and their callbacks
    invoked, before those of the rest. *)
Theorem X3_fan_out_in_order (zs1 zs2 : list ZoneObserver) (d n : Z) :
  fst (evaluate_zones (zs1 ++ zs2) d n)
  = fst (evaluate_zones zs1 d n) ++ fst (evaluate_zones zs2 d n)
  ∧ snd (evaluate_zones (zs1 ++ zs2) d n)
    = snd (evaluate_zones zs1 d n) ++ snd (evaluate_zones zs2 d n).
Proof.
  induction zs1 as [|z zs1 [IH1 IH2]]; simpl; [split; reflexivity|].
  destruct (evaluate z d n) as [z' c].
  destruct (evaluate_zones (zs1 ++ zs2) d n) as [l cs].
  destruct (evaluate_zones zs1 d n) as [l1 cs1].
  destruct (evaluate_zones zs2 d n) as [l2 cs2].
  simpl in *. subst. split; [reflexivity|apply app_assoc].
Qed.

(** ** The counters and the runs of samples *)

Lemma incr_to_size_t (x : Z) : incr (to_size_t x) = to_size_t (x + 1).
Proof. unfold incr, to_size_t. apply Zplus_mod_idemp_l. Qed.

Lemma to_size_t_0 : to_size_t 0 = 0.
Proof. unfold to_size_t. apply Zmod_0_l. Qed.

Lemma counters_run_length inside calls :
  ∀ z a b,
    (∀ d, in_zone z d = inside d) →
    in_zone_count z = to_size_t (Z.of_nat a) →
    out_zone_count z = to_size_t (Z.of_nat b) →
    in_zone_count (fst (feed_each z calls))
    = to_size_t (Z.of_nat (run_length inside true a (map fst calls)))
    ∧ out_zone_count (fst (feed_each z calls))
      = to_size_t (Z.of_nat (run_length inside false b (map fst calls))).
Proof.
  induction calls as [|[d n] rest IH]; intros z a b Hcls Ha Hb; simpl;
    [split; assumption|].
  destruct (evaluate_side z d n (in_zone z d) eq_refl)
    as (z1 & c1 & E & Hsetup & Hs & H0 & _).
  rewrite E.
  assert (Hcls1 : ∀ x, in_zone z1 x = inside x)
    by (intros x; rewrite (in_zone_same_setup _ _ _ Hsetup); apply Hcls).
  rewrite <- Hcls.
  destruct (in_zone z d); simpl in Hs, H0; simpl Bool.eqb; cbv iota.
  - specialize (IH z1 (S a) 0%nat Hcls1).
    destruct (feed_each z1 rest) as [z2 c2]. simpl in *. apply IH.
    + rewrite Hs, Ha, incr_to_size_t. f_equal. lia.
    + rewrite H0. symmetry. exact to_size_t_0.
  - specialize (IH z1 0%nat (S b) Hcls1).
    destruct (feed_each z1 rest) as [z2 c2]. simpl in *. apply IH.
    + rewrite H0. symmetry. exact to_size_t_0.
    + rewrite Hs, Hb, incr_to_size_t. f_equal. lia.
Qed.

(** X4. After any sequence of [evaluate] calls on a zone as constructed,
    whatever the certainties, [in_zone_count] is the number of in-range
    samples that end the sequence and [out_zone_count] the number of
    out-of-range samples that end it, both as [size_t] values (modulo
    [SIZE_MAX + 1]). *)
Theorem X4_counters_are_run_lengths (min max : Z) (f g : option fnptr)
    (calls : list (Z * Z)) :
  let z := ZoneObserver_new min max f g in
  in_zone_count (fst (feed_each z calls))
  = to_size_t (Z.of_nat (run_length (in_zone z) true 0 (map fst calls)))
  ∧ out_zone_count (fst (feed_each z calls))
    = to_size_t (Z.of_nat (run_length (in_zone z) false 0 (map fst calls))).
Proof.
  intros z. apply counters_run_length; [reflexivity| |];
    symmetry; exact to_size_t_0.
Qed.

Lemma feed_each_same_side b calls :
  ∀ z, object_present z = b →
  Forall (λ c, in_zone z (fst c) = b) calls →
  snd (feed_each z calls) = []
  ∧ object_present (fst (feed_each z calls)) = b.
Proof.
  induction calls as [|[d n] rest IH]; intros z Hp HF; simpl;
    [split; [reflexivity|exact Hp]|].
  apply Forall_cons in HF as [Hd HF]. simpl in Hd.
  destruct (evaluate_side z d n b Hd) as (z1 & c1 & E & S & _ & _ & H).
  rewrite Hp in H. replace (Bool.eqb b (negb b)) with false in H
    by (destruct b; reflexivity).
  rewrite andb_false_r in H. destruct H as [Hp1 ->]. rewrite E.
  destruct (IH z1) as [IH1 IH2]; [congruence| |].
  - eapply Forall_impl; [exact HF|]. intros c <-.
    apply in_zone_same_setup, S.
  - destruct (feed_each z1 rest) as [z2 c2]. simpl in *.
    split; assumption.
Qed.

(** X5. While the samples stay on the side the zone is already on (in
    range for an Occupied zone, out of range for an Empty one), no
    callback is invoked and [object_present] keeps its value, whatever
    the certainties and the values of the counters, also when a counter
    wraps. *)
Theorem X5_settled_zone_is_silent (z : ZoneObserver) (calls : list (Z * Z)) :
  Forall (λ c, in_zone z (fst c) = object_present z) calls →
  snd (feed_each z calls) = []
  ∧ object_present (fst (feed_each z calls)) = object_present z.
Proof. intros H. apply feed_each_same_side; [reflexivity|exact H]. Qed.

(** X6. A zone on one side with the counter of the other side at 0
    changes side on exactly the [n]-th consecutive sample of the other
    side, for [1 <= n <= SIZE_MAX]: the first [n - 1] samples invoke
    nothing, and the [n]-th sets the flag and invokes the callback of the
    transition, [on_enter] with the distance of that [n]-th sample or
    [on_exit], if it is set. [b] is the side of the samples. *)
Theorem X6_transition_on_nth_sample (b : bool) (n : Z) (z : ZoneObserver)
    (ds : list Z) (d : Z) :
  1 <= n <= SIZE_MAX →
  object_present z = negb b →
  (if b then in_zone_count z else out_zone_count z) = 0 →
  Forall (λ x, in_zone z x = b) ds → in_zone z d = b →
  Z.of_nat (length ds) = n - 1 →
  snd (feed n z ds) = []
  ∧ object_present (fst (feed n z ds)) = negb b
  ∧ object_present (fst (feed n z (ds ++ [d]))) = b
  ∧ snd (feed n z (ds ++ [d]))
    = (if b then
         match on_enter z with
         | Some f => [OnEnter f d]
         | None => []
         end
       else
         match on_exit z with
         | Some f => [OnExit f]
         | None => []
         end).
Proof.
  intros Hn Hp H0 HF Hd Hlen. change (streak b z = 0) in H0.
  destruct (feed_opposite_side n b ds (proj2 Hn) z Hp) as
    (z1 & c1 & E & S & _ & H); [lia|exact HF|].
  rewrite H0, Z.add_0_r, Z.geb_leb in H.
  destruct (Z.leb_spec n (Z.of_nat (length ds))) as [?|_]; [lia|].
  destruct H as (-> & Hp1 & Hs1).
  rewrite feed_app, E. simpl.
  split; [reflexivity|]. split; [exact Hp1|].
  assert (Hd1 : in_zone z1 d = b)
    by (rewrite (in_zone_same_setup _ _ _ S); exact Hd).
  destruct (evaluate_side z1 d n b Hd1) as (z2 & c2 & E2 & _ & _ & _ & H2).
  rewrite E2. simpl.
  rewrite Hs1, incr_small, Hp1, Bool.eqb_reflx, andb_true_r, Z.geb_leb
    in H2 by lia.
  destruct (Z.leb_spec n (0 + Z.of_nat (length ds) + 1)) as [_|?]; [|lia].
  destruct H2 as [Hp2 ->]. split; [exact Hp2|].
  rewrite app_nil_r, (fire_same_setup _ _ _ _ S).
  destruct b; reflexivity.
Qed.

Lemma feed_short_runs n rs :
  1 <= n <= SIZE_MAX →
  ∀ z, alternating (in_zone z) rs →
  match rs with
  | (b, _) :: _ => streak b z = 0
  | [] => True
  end →
  object_present z = false →
  Forall (λ r, Z.of_nat (length (snd r)) < n) rs →
  snd (feed n z (concat (map snd rs))) = []
  ∧ object_present (fst (feed n z (concat (map snd rs)))) = false.
Proof.
  intros Hn. induction rs as [|[b ds] rest IH];
    intros z Halt H0 Hp Hshort; simpl; [split; [reflexivity|exact Hp]|].
  destruct Halt as (Hne & HF & Hnext & Hrest).
  apply Forall_cons in Hshort as [Hlen Hshort]. simpl in Hlen.
  rewrite feed_app.
  assert (Hrun : ∃ z1, feed n z ds = (z1, []) ∧ same_setup z z1
                       ∧ object_present z1 = false
                       ∧ streak (negb b) z1 = 0).
  { destruct b.
    - destruct (feed_opposite_side n true ds (proj2 Hn) z Hp) as
        (z1 & c1 & E & S & H0' & H); [lia|exact HF|].
      rewrite H0, Z.add_0_r, Z.geb_leb in H.
      destruct (Z.leb_spec n (Z.of_nat (length ds))) as [?|_]; [lia|].
      destruct H as (-> & Hp1 & _). exists z1. auto.
    - destruct (feed_same_side n false ds z Hp HF) as (z1 & E & S & Hp1 & H0').
      exists z1. auto. }
  destruct Hrun as (z1 & E & S & Hp1 & H1). rewrite E.
  specialize (IH z1 (alternating_same_setup _ _ _ S Hrest)).
  destruct (feed n z1 (concat (map snd rest))) as [z2 c2]. simpl in *.
  apply IH; [|exact Hp1|exact Hshort].
  destruct rest as [|[b' ds'] rest']; [exact I|]. subst b'. exact H1.
Qed.

(** X7. Flicker is rejected: if every maximal run of consecutive samples
    on one side of the window is shorter than the certainty [n], with
    [1 <= n <= SIZE_MAX], a zone as constructed invokes no callback and
    is still Empty at the end. *)
Theorem X7_flicker_is_rejected (min max : Z) (f g : option fnptr) (n : Z)
    (samples : list Z) :
  1 <= n <= SIZE_MAX →
  let z := ZoneObserver_new min max f g in
  Forall (λ r, Z.of_nat (length (snd r)) < n) (runs (in_zone z) samples) →
  snd (feed n z samples) = []
  ∧ object_present (fst (feed n z samples)) = false.
Proof.
  intros Hn z Hshort.
  pose proof (feed_short_runs n (runs (in_zone z) samples) Hn z
                (runs_alternating _ _)) as H.
  rewrite runs_concat in H. apply H; [|reflexivity|exact Hshort].
  destruct (runs (in_zone z) samples) as [|[[] ?] ?]; reflexivity || exact I.
Qed.

(** ** Further properties of the monitor *)

Lemma evaluate_zones_lookup zs d n i :
  fst (evaluate_zones zs d n) !! i = (λ z, fst (evaluate z d n)) <$> zs !! i.
Proof.
  revert i. induction zs as [|z zs IH]; intros [|i]; try reflexivity.
  - simpl. destruct (evaluate z d n) as [z' c].
    destruct (evaluate_zones zs d n) as [zs' cs]. reflexivity.
  - specialize (IH i). simpl.
    destruct (evaluate z d n) as [z' c].
    destruct (evaluate_zones zs d n) as [zs' cs]. exact IH.
Qed.

(** X8. Zones are evaluated independently: on a tick that reads a sample,
    the new state of the zone at any index is what [evaluate] makes of the
    old state of that zone alone with the sample and the certainty factor;
    the other zones, overlapping or not, have no part in it. *)
Theorem X8_zones_are_independent (m : VL53L1XZoneMonitor) (e : Env) (i : nat) :
  update_interval_ms m
    <= sub_u32 (millis (wall_call e)) (last_update_time m) →
  data_ready e = true →
  zones (fst (performUpdate m e)) !! i
  = (λ z, fst (evaluate z (sample e) (certainty_factor m))) <$> zones m !! i.
Proof.
  intros Hgate Hready. unfold performUpdate.
  rewrite Z.geb_leb, (proj2 (Z.leb_le _ _) Hgate), Hready. cbv zeta.
  simpl zones. simpl certainty_factor.
  rewrite <- evaluate_zones_lookup.
  destruct (evaluate_zones _ _ _) as [zs calls]. reflexivity.
Qed.

(** X9. The interval test is exact on the wall clock, across the
    roll-over of [millis()]: if the last tick stored the clock reading of
    wall time [s] and less than [2^32] ms have passed since, a tick at
    wall time [now] is skipped (monitor unchanged, sensor not touched)
    when [now - s < update_interval_ms] and goes through (a new
    [last_update_time]) when [now - s >= update_interval_ms]. *)
Theorem X9_interval_test_is_exact (m : VL53L1XZoneMonitor) (e : Env) (s : Z) :
  last_update_time m = millis s →
  0 <= wall_call e - s < 2 ^ 32 →
  (wall_call e - s < update_interval_ms m →
     performUpdate m e = (m, [Millis (millis (wall_call e))]))
  ∧ (update_interval_ms m <= wall_call e - s →
       last_update_time (fst (performUpdate m e)) = millis (wall_stamp e)).
Proof.
  intros Hlast Hgap.
  assert (Hsub : sub_u32 (millis (wall_call e)) (last_update_time m)
                 = wall_call e - s).
  { rewrite Hlast. unfold sub_u32, millis. rewrite <- Zminus_mod.
    apply Z.mod_small. exact Hgap. }
  unfold performUpdate. rewrite Hsub, Z.geb_leb.
  destruct (Z.leb_spec (update_interval_ms m) (wall_call e - s));
    (split; intros ?; [try lia|try lia]); [|reflexivity].
  destruct (data_ready e); [|reflexivity].
  cbv zeta. destruct (evaluate_zones _ _ _) as [zs calls]. reflexivity.
Qed.

(** X10. [addZone] puts the new zone, Empty with both counters 0 and the
    given window and callbacks, at the index that was the zone count, makes
    the count one more, and leaves every zone at the index it had and the
    other members as they were. *)
Theorem X10_addZone_appends (m : VL53L1XZoneMonitor) (min max : Z)
    (f g : option fnptr) :
  getZoneCount (addZone m min max f g) = S (getZoneCount m)
  ∧ zones (addZone m min max f g) !! getZoneCount m
    = Some (mkZoneObserver min max false f g 0 0)
  ∧ (∀ i, (i < getZoneCount m)%nat →
       zones (addZone m min max f g) !! i = zones m !! i)
  ∧ update_interval_ms (addZone m min max f g) = update_interval_ms m
  ∧ last_update_time (addZone m min max f g) = last_update_time m
  ∧ certainty_factor (addZone m min max f g) = certainty_factor m.
Proof.
  unfold getZoneCount, addZone. simpl. repeat split.
  - rewrite length_app. simpl. lia.
  - rewrite lookup_app_r by lia. rewrite Nat.sub_diag. reflexivity.
  - intros i Hi. apply lookup_app_l, Hi.
Qed.

Lemma delete_last {A} (l : list A) (x : A) : delete (length l) (l ++ [x]) = l.
Proof. induction l as [|y l IH]; simpl; [reflexivity|]. f_equal. exact IH. Qed.

(** X11. Deleting the zone that [addZone] has just added, at the index
    that was the zone count, gives back the monitor as it was. *)
Theorem X11_addZone_deleteZone (m : VL53L1XZoneMonitor) (min max : Z)
    (f g : option fnptr) :
  deleteZone (addZone m min max f g) (getZoneCount m) = m.
Proof.
  unfold deleteZone, addZone, getZoneCount. simpl.
  rewrite lt_length_true by (rewrite length_app; simpl; lia).
  unfold set_zones. simpl. rewrite delete_last. destruct m; reflexivity.
Qed.

Lemma updateZone_lookup m i min max j :
  zones (updateZone m i min max) !! j
  = (λ z, if decide (j = i) then rebound min max z else z) <$> zones m !! j.
Proof.
  unfold updateZone.
  destruct (Nat.ltb_spec i (length (zones m))) as [Hi|Hi].
  - destruct (decide (j = i)) as [->|Hne].
    + destruct (lookup_lt_is_Some_2 (zones m) i Hi) as [z Hz].
      unfold rebound.
      destruct (min =? 0); destruct (max =? 0); simpl;
        rewrite ?list_lookup_alter_eq, ?Hz; simpl; try reflexivity.
      destruct z; reflexivity.
    + destruct (min =? 0); destruct (max =? 0); simpl;
        rewrite ?list_lookup_alter_ne by auto;
        destruct (zones m !! j); reflexivity.
  - destruct (decide (j = i)) as [->|Hne].
    + rewrite (lookup_ge_None_2 (zones m) i Hi). reflexivity.
    + destruct (zones m !! j); reflexivity.
Qed.

Lemma updateZone_members m i min max :
  update_interval_ms (updateZone m i min max) = update_interval_ms m
  ∧ last_update_time (updateZone m i min max) = last_update_time m
  ∧ certainty_factor (updateZone m i min max) = certainty_factor m.
Proof.
  unfold updateZone. destruct (_ <? _)%nat; [|repeat split].
  destruct (negb _); destruct (negb _); repeat split.
Qed.

Lemma monitor_eq (m1 m2 : VL53L1XZoneMonitor) :
  zones m1 = zones m2 → update_interval_ms m1 = update_interval_ms m2 →
  last_update_time m1 = last_update_time m2 →
  certainty_factor m1 = certainty_factor m2 → m1 = m2.
Proof. destruct m1, m2; simpl; congruence. Qed.

(** X12. [updateZone] never writes a bound of 0: a zone that has
    [min_distance = 0] (or [max_distance = 0]) after the call had it
    before, whatever the index and the arguments. *)
Theorem X12_updateZone_never_writes_zero (m : VL53L1XZoneMonitor) (i : nat)
    (min max : Z) (j : nat) (z' : ZoneObserver) :
  zones (updateZone m i min max) !! j = Some z' →
  ∃ z, zones m !! j = Some z
       ∧ (min_distance z' = 0 → min_distance z = 0)
       ∧ (max_distance z' = 0 → max_distance z = 0).
Proof.
  rewrite updateZone_lookup. intros H.
  apply fmap_Some in H as (z & Hz & ->). exists z. split; [exact Hz|].
  destruct (decide (j = i)); [|auto]. unfold rebound. simpl.
  destruct (Z.eqb_spec min 0); destruct (Z.eqb_spec max 0);
    split; intros; congruence.
Qed.

(** X13. Changing the lower bound and then the upper bound of a zone in
    two calls of [updateZone], each with 0 for the other bound, gives the
    same monitor as changing both in one call. *)
Theorem X13_updateZone_in_two_steps (m : VL53L1XZoneMonitor) (i : nat)
    (min max : Z) :
  updateZone (updateZone m i min 0) i 0 max = updateZone m i min max.
Proof.
  destruct (updateZone_members (updateZone m i min 0) i 0 max)
    as (A1 & A2 & A3).
  destruct (updateZone_members m i min 0) as (B1 & B2 & B3).
  destruct (updateZone_members m i min max) as (C1 & C2 & C3).
  apply monitor_eq; try congruence.
  apply list_eq. intros j. rewrite !updateZone_lookup.
  destruct (zones m !! j) as [z|]; [|reflexivity]. simpl. f_equal.
  destruct (decide (j = i)); [|reflexivity]. unfold rebound. simpl.
  destruct (min =? 0); destruct (max =? 0); reflexivity.
Qed.

(** ** Initialisation *)

Lemma handle_interval m r e :
  update_interval_ms (fst (handle m r e)) = update_interval_ms m.
Proof.
  destruct (ticks r) eqn:T.
  - rewrite (handle_tick _ _ _ T).
    destruct (performUpdate_tick m e) as (m1 & effs & E & H & _).
    rewrite E. exact H.
  - apply handle_not_tick, T.
Qed.

Lemma run_interval trace :
  ∀ m, update_interval_ms (fst (run m trace)) = update_interval_ms m.
Proof.
  induction trace as [|[r e] rest IH]; intros m; simpl; [reflexivity|].
  pose proof (handle_interval m r e) as H.
  destruct (handle m r e) as [m1 effs]. specialize (IH m1).
  destruct (run m1 rest) as [m2 h]. simpl in *. congruence.
Qed.

(** X14. No operation changes [update_interval_ms]: after any sequence of
    operations on a monitor built by the constructor it is the interval
    given to the constructor. So an [init] at that point calls the driver's
    [init()], returns its answer and, only when the answer is true, calls
    [startContinuous] after it with exactly that interval. *)
Theorem X14_interval_is_fixed (interval_ms certainty : Z)
    (trace : list (request * Env)) (sensor_ok : bool) :
  update_interval_ms
    (fst (run (VL53L1XZoneMonitor_new interval_ms certainty) trace))
  = interval_ms
  ∧ init (fst (run (VL53L1XZoneMonitor_new interval_ms certainty) trace))
      sensor_ok
    = (sensor_ok,
       if sensor_ok then [SensorInit; SensorStartContinuous interval_ms]
       else [SensorInit]).
Proof.
  pose proof (run_interval trace
                (VL53L1XZoneMonitor_new interval_ms certainty)) as H.
  simpl in H. split; [exact H|].
  unfold init. rewrite H. destruct sensor_ok; reflexivity.
Qed.

End SizeT.

(** * Examples on a target with a 32-bit [size_t] *)

(** C2, as stated for every zone, fails for a zone without [on_enter]:
    with certainty 1 the sample 200 is a run of length 1 entered from
    Empty, and nothing is invoked. *)
Lemma C2_counterexample :
  1 <= 1 <= SIZE_MAX_32
  ∧ snd (feed SIZE_MAX_32 1 zone_silent [200]) = []
  ∧ count_enter (snd (feed SIZE_MAX_32 1 zone_silent [200])) = 0%nat
  ∧ entering_runs SIZE_MAX_32 1 zone_silent [200] = 1%nat.
Proof. split; [unfold SIZE_MAX_32; lia|]. repeat split. Qed.

(** Scenario "enter then exit": certainty 2, samples 150, 150, 400, 400. *)
Lemma C2_hysteresis_witness :
  1 <= 2 <= SIZE_MAX_32
  ∧ count_enter (snd (feed SIZE_MAX_32 2 zone_both [150; 150; 400; 400]))
    = entering_runs SIZE_MAX_32 2 zone_both [150; 150; 400; 400]
  ∧ count_exit (snd (feed SIZE_MAX_32 2 zone_both [150; 150; 400; 400]))
    = leaving_runs SIZE_MAX_32 2 zone_both [150; 150; 400; 400].
Proof.
  split; [unfold SIZE_MAX_32; lia|].
  apply (C2_hysteresis SIZE_MAX_32 100 300 (Some 1%nat) (Some 2%nat) 2
           [150; 150; 400; 400]).
  unfold SIZE_MAX_32; lia.
Defined.

(** C4, as stated for every zone, fails for a zone without [on_exit]: in,
    out, in with certainty 1 invokes [on_enter] twice and nothing else. *)
Lemma C4_counterexample :
  snd (feed_each SIZE_MAX_32 zone_enter_only [(200, 1); (50, 1); (200, 1)])
  = [OnEnter 1%nat 200; OnEnter 1%nat 200]
  ∧ no_repeat is_enter false
      (snd (feed_each SIZE_MAX_32 zone_enter_only
              [(200, 1); (50, 1); (200, 1)]))
    = false.
Proof. split; reflexivity. Qed.

(** In, out, in, out on a zone with both callbacks, the certainty changing
    from call to call. *)
Lemma C4_no_refire_witness :
  is_Some (on_exit zone_both) ∧ is_Some (on_enter zone_both)
  ∧ no_repeat is_enter false
      (snd (feed_each SIZE_MAX_32 zone_both
              [(200, 1); (50, 1); (200, 3); (50, 0)])) = true
  ∧ no_repeat is_exit false
      (snd (feed_each SIZE_MAX_32 zone_both
              [(200, 1); (50, 1); (200, 3); (50, 0)])) = true.
Proof.
  assert (Hx : is_Some (on_exit zone_both)) by (eexists; reflexivity).
  assert (He : is_Some (on_enter zone_both)) by (eexists; reflexivity).
  split; [exact Hx|]. split; [exact He|].
  destruct (C4_no_refire SIZE_MAX_32 zone_both
              [(200, 1); (50, 1); (200, 3); (50, 0)]) as [H1 H2].
  split; [exact (H1 Hx)|exact (H2 He)].
Defined.

(** C5, as stated, fails when the clock moves between the two calls of
    [millis()]: the interval has elapsed at [T = 50], and
    [last_update_time] becomes 51. *)
Lemma C5_counterexample :
  update_interval_ms (VL53L1XZoneMonitor_new 50 1)
    <= sub_u32 (millis (wall_call (mkEnv 50 51 false 0)))
         (last_update_time (VL53L1XZoneMonitor_new 50 1))
  ∧ millis (wall_call (mkEnv 50 51 false 0)) = 50
  ∧ last_update_time
      (fst (performUpdate SIZE_MAX_32 (VL53L1XZoneMonitor_new 50 1)
              (mkEnv 50 51 false 0)))
    = 51.
Proof. split; [vm_compute; discriminate|]. split; reflexivity. Qed.

(** A tick that comes too early, and one that finds no sample ready. *)
Lemma C5_performUpdate_witness :
  (sub_u32 (millis 49) 0 < 50
   ∧ performUpdate SIZE_MAX_32 (VL53L1XZoneMonitor_new 50 1)
       (mkEnv 49 49 true 200)
     = (VL53L1XZoneMonitor_new 50 1, [Millis (millis 49)]))
  ∧ (50 <= sub_u32 (millis 50) 0
     ∧ last_update_time
         (fst (performUpdate SIZE_MAX_32 (VL53L1XZoneMonitor_new 50 1)
                 (mkEnv 50 51 false 0)))
       = millis 51).
Proof.
  split.
  - assert (H : sub_u32 (millis 49) 0 < 50) by (vm_compute; reflexivity).
    split; [exact H|].
    exact (proj1 (C5_performUpdate SIZE_MAX_32 (VL53L1XZoneMonitor_new 50 1)
                    (mkEnv 49 49 true 200)) H).
  - assert (H : 50 <= sub_u32 (millis 50) 0) by (vm_compute; discriminate).
    split; [exact H|].
    exact (proj1 (proj2 (C5_performUpdate SIZE_MAX_32
                           (VL53L1XZoneMonitor_new 50 1)
                           (mkEnv 50 51 false 0)) H)).
Defined.

(** Deleting the middle zone of three, and deleting at index 5. *)
Lemma C6_deleteZone_witness :
  (1 < getZoneCount monitor_three)%nat
  ∧ zones (deleteZone monitor_three 1) !! 0%nat = zones monitor_three !! 0%nat
  ∧ zones (deleteZone monitor_three 1) !! 1%nat = zones monitor_three !! 2%nat
  ∧ S (getZoneCount (deleteZone monitor_three 1)) = getZoneCount monitor_three
  ∧ (getZoneCount monitor_three <= 5)%nat
  ∧ deleteZone monitor_three 5 = monitor_three.
Proof.
  assert (H1 : (1 < getZoneCount monitor_three)%nat) by (unfold getZoneCount; simpl; lia).
  assert (H5 : (getZoneCount monitor_three <= 5)%nat)
    by (unfold getZoneCount; simpl; lia).
  destruct (proj1 (C6_deleteZone monitor_three 1) H1) as (Hlt & Hgt & Hn & _).
  split; [exact H1|]. split; [apply Hlt; lia|].
  split; [apply (Hgt 2%nat); lia|]. split; [exact Hn|].
  split; [exact H5|]. exact (proj2 (C6_deleteZone monitor_three 5) H5).
Defined.

(** A new upper bound for the Occupied zone, and an index out of range. *)
Lemma C7_updateZone_witness :
  zones monitor_three !! 1%nat
  = Some (mkZoneObserver 150 250 true (Some 3%nat) None 4 0)
  ∧ zones (updateZone monitor_three 1 0 260) !! 1%nat
    = Some (mkZoneObserver 150 260 true (Some 3%nat) None 4 0)
  ∧ (getZoneCount monitor_three <= 3)%nat
  ∧ updateZone monitor_three 3 120 260 = monitor_three.
Proof.
  assert (Hz : zones monitor_three !! 1%nat
               = Some (mkZoneObserver 150 250 true (Some 3%nat) None 4 0))
    by reflexivity.
  assert (H3 : (getZoneCount monitor_three <= 3)%nat)
    by (unfold getZoneCount; simpl; lia).
  split; [exact Hz|].
  split; [exact (proj1 (proj2 (C7_updateZone monitor_three 1 0 260)) _ Hz)|].
  split; [exact H3|].
  exact (proj1 (C7_updateZone monitor_three 3 120 260) H3).
Defined.

(** The query of an index out of range and of the Occupied zone, on a tick
    that comes too early to read the sensor. *)
Lemma C8_index_tolerance_witness :
  (getZoneCount monitor_three <= 3)%nat
  ∧ snd (isObjectInZone SIZE_MAX_32 monitor_three 3 (mkEnv 10 10 true 500))
    = Returns false
  ∧ getZone monitor_three 3 = Returns nullptr
  ∧ (1 < getZoneCount monitor_three)%nat
  ∧ getZone monitor_three 1 = Returns (zone_at 1).
Proof.
  assert (H3 : (getZoneCount monitor_three <= 3)%nat)
    by (unfold getZoneCount; simpl; lia).
  assert (H1 : (1 < getZoneCount monitor_three)%nat)
    by (unfold getZoneCount; simpl; lia).
  destruct (C8_index_tolerance SIZE_MAX_32 monitor_three 3
              (mkEnv 10 10 true 500)) as (_ & Hout & _).
  destruct (C8_index_tolerance SIZE_MAX_32 monitor_three 1
              (mkEnv 10 10 true 500)) as (_ & _ & Hin & _).
  destruct (Hout H3) as [Hq Hg]. destruct (Hin H1) as (_ & Hp & _).
  repeat split; assumption.
Defined.

(** C9, as stated for all sample reads of the monitor, fails for
    [getDistance], which reads whenever a sample is ready: three reads
    within 20 ms with an interval of 50 ms, where the bound is 2. *)
Lemma C9_counterexample :
  clock_monotone 0 probe_trace
  ∧ reads_within 0 20
      (sensor_reads
         (snd (run SIZE_MAX_32 (VL53L1XZoneMonitor_new 50 1) probe_trace)))
    = 3
  ∧ ceil_div 20 50 + 1 = 2.
Proof.
  split; [simpl; lia|]. split; reflexivity.
Qed.

(** A main loop that calls [update] more often than the interval. *)
Lemma C9_tick_rate_limit_witness :
  0 < 50 ∧ 0 <= 100 ∧ clock_monotone 0 loop_trace
  ∧ reads_within 50 100
      (tick_reads
         (snd (run SIZE_MAX_32 (VL53L1XZoneMonitor_new 50 1) loop_trace)))
    <= ceil_div 100 50 + 1.
Proof.
  assert (Hm : clock_monotone 0 loop_trace) by (simpl; lia).
  split; [lia|]. split; [lia|]. split; [exact Hm|].
  apply (C9_tick_rate_limit SIZE_MAX_32 50 1 loop_trace 50 100);
    [lia|lia|exact Hm].
Defined.

(** C10, as stated for every zone state, fails where the increment wraps:
    an Empty zone with [in_zone_count = SIZE_MAX] and an in-range sample.
    With certainty 0 the zone becomes Occupied and [on_enter] is invoked;
    with certainty 1 neither happens. *)
Lemma C10_counterexample :
  evaluate SIZE_MAX_32 zone_at_wrap 200 0
  = (mkZoneObserver 100 300 true (Some 1%nat) (Some 2%nat) 0 0,
     [OnEnter 1%nat 200])
  ∧ evaluate SIZE_MAX_32 zone_at_wrap 200 1
    = (mkZoneObserver 100 300 false (Some 1%nat) (Some 2%nat) 0 0, []).
Proof. split; reflexivity. Qed.

(** A freshly constructed zone, and the monitor after the main loop. *)
Lemma C10_certainty_zero_witness :
  65535 <= SIZE_MAX_32
  ∧ wrap_free SIZE_MAX_32 zone_both
  ∧ evaluate SIZE_MAX_32 zone_both 200 0 = evaluate SIZE_MAX_32 zone_both 200 1
  ∧ 0 <= 1 <= SIZE_MAX_32
  ∧ size_t_args SIZE_MAX_32 loop_trace
  ∧ snd (performUpdate SIZE_MAX_32
           (setCertaintyFactor
              (fst (run SIZE_MAX_32 (VL53L1XZoneMonitor_new 50 1) loop_trace))
              0)
           (mkEnv 210 210 true 200))
    = snd (performUpdate SIZE_MAX_32
             (setCertaintyFactor
                (fst (run SIZE_MAX_32 (VL53L1XZoneMonitor_new 50 1)
                        loop_trace))
                1)
             (mkEnv 210 210 true 200)).
Proof.
  assert (HS : 65535 <= SIZE_MAX_32) by (unfold SIZE_MAX_32; lia).
  assert (Hw : wrap_free SIZE_MAX_32 zone_both)
    by (split; intros _; simpl; unfold SIZE_MAX_32; lia).
  assert (Hc : 0 <= 1 <= SIZE_MAX_32) by (unfold SIZE_MAX_32; lia).
  assert (Ht : size_t_args SIZE_MAX_32 loop_trace)
    by (repeat constructor; unfold SIZE_MAX_32; lia).
  destruct (C10_certainty_zero SIZE_MAX_32 HS) as [Hz Hm].
  split; [exact HS|]. split; [exact Hw|]. split; [exact (Hz _ 200 Hw)|].
  split; [exact Hc|]. split; [exact Ht|].
  exact (proj2 (proj2 (proj2 (Hm 50 1 loop_trace (mkEnv 210 210 true 200)
                                Hc Ht)))).
Defined.

(** The samples 200, 50, 200 on a window with [min_distance = 300] and
    [max_distance = 100]. *)
Lemma X1_empty_window_never_entered_witness :
  max_distance zone_inverted < min_distance zone_inverted
  ∧ object_present zone_inverted = false
  ∧ object_present
      (fst (feed_each SIZE_MAX_32 zone_inverted [(200, 1); (50, 1); (200, 1)]))
    = false
  ∧ snd (feed_each SIZE_MAX_32 zone_inverted [(200, 1); (50, 1); (200, 1)])
    = [].
Proof.
  assert (Hw : max_distance zone_inverted < min_distance zone_inverted)
    by (simpl; lia).
  split; [exact Hw|]. split; [reflexivity|].
  exact (X1_empty_window_never_entered SIZE_MAX_32 zone_inverted
           [(200, 1); (50, 1); (200, 1)] Hw eq_refl).
Defined.

(** The first sample, on the lower bound of the window. *)
Lemma X2_certainty_one_first_sample_witness :
  object_present zone_both = false ∧ in_zone zone_both 100 = true
  ∧ 0 <= in_zone_count zone_both < SIZE_MAX_32
  ∧ evaluate SIZE_MAX_32 zone_both 100 1
    = (mkZoneObserver 100 300 true (Some 1%nat) (Some 2%nat) 1 0,
       [OnEnter 1%nat 100]).
Proof.
  assert (Hc : 0 <= in_zone_count zone_both < SIZE_MAX_32)
    by (simpl; unfold SIZE_MAX_32; lia).
  split; [reflexivity|]. split; [reflexivity|]. split; [exact Hc|].
  exact (X2_certainty_one_first_sample SIZE_MAX_32 zone_both 100
           eq_refl eq_refl Hc).
Defined.

(** In-range samples on an Occupied zone, with certainties 1, 0 and 5. *)
Lemma X5_settled_zone_is_silent_witness :
  Forall (λ c, in_zone (mkZoneObserver 150 250 true (Some 3%nat) None 4 0)
                 (fst c)
               = object_present
                   (mkZoneObserver 150 250 true (Some 3%nat) None 4 0))
    [(200, 1); (160, 0); (250, 5)]
  ∧ snd (feed_each SIZE_MAX_32
           (mkZoneObserver 150 250 true (Some 3%nat) None 4 0)
           [(200, 1); (160, 0); (250, 5)]) = [].
Proof.
  assert (H : Forall
                (λ c, in_zone
                        (mkZoneObserver 150 250 true (Some 3%nat) None 4 0)
                        (fst c)
                      = object_present
                          (mkZoneObserver 150 250 true (Some 3%nat) None 4 0))
                [(200, 1); (160, 0); (250, 5)])
    by (repeat constructor).
  split; [exact H|].
  exact (proj1 (X5_settled_zone_is_silent SIZE_MAX_32 _ _ H)).
Defined.

(** Certainty 3: the samples 150 and 200 invoke nothing, the sample 300,
    on the upper bound, is the one [on_enter] gets. *)
Lemma X6_transition_on_nth_sample_witness :
  1 <= 3 <= SIZE_MAX_32
  ∧ Forall (λ x, in_zone zone_both x = true) [150; 200]
  ∧ in_zone zone_both 300 = true
  ∧ Z.of_nat (length [150; 200]) = 3 - 1
  ∧ snd (feed SIZE_MAX_32 3 zone_both [150; 200]) = []
  ∧ snd (feed SIZE_MAX_32 3 zone_both ([150; 200] ++ [300]))
    = [OnEnter 1%nat 300].
Proof.
  assert (Hn : 1 <= 3 <= SIZE_MAX_32) by (unfold SIZE_MAX_32; lia).
  assert (HF : Forall (λ x, in_zone zone_both x = true) [150; 200])
    by (repeat constructor).
  assert (Hlen : Z.of_nat (length [150; 200]) = 3 - 1) by reflexivity.
  destruct (X6_transition_on_nth_sample SIZE_MAX_32 true 3 zone_both
              [150; 200] 300 Hn eq_refl eq_refl HF eq_refl Hlen)
    as (H1 & _ & _ & H2).
  repeat split; try assumption; lia.
Defined.

(** Scenario "debounce rejects flicker": certainty 3 and the samples
    200, 50, 200, 50, 200. *)
Lemma X7_flicker_is_rejected_witness :
  1 <= 3 <= SIZE_MAX_32
  ∧ Forall (λ r, Z.of_nat (length (snd r)) < 3)
      (runs (in_zone zone_both) [200; 50; 200; 50; 200])
  ∧ snd (feed SIZE_MAX_32 3 zone_both [200; 50; 200; 50; 200]) = []
  ∧ object_present
      (fst (feed SIZE_MAX_32 3 zone_both [200; 50; 200; 50; 200]))
    = false.
Proof.
  assert (Hn : 1 <= 3 <= SIZE_MAX_32) by (unfold SIZE_MAX_32; lia).
  assert (Hs : Forall (λ r, Z.of_nat (length (snd r)) < 3)
                 (runs (in_zone zone_both) [200; 50; 200; 50; 200]))
    by (simpl; repeat constructor).
  split; [exact Hn|]. split; [exact Hs|].
  exact (X7_flicker_is_rejected SIZE_MAX_32 100 300 (Some 1%nat) (Some 2%nat)
           3 [200; 50; 200; 50; 200] Hn Hs).
Defined.

(** The sample 175 on three zones, two of which overlap. *)
Lemma X8_zones_are_independent_witness :
  update_interval_ms monitor_three
    <= sub_u32 (millis (wall_call (mkEnv 60 60 true 175)))
         (last_update_time monitor_three)
  ∧ data_ready (mkEnv 60 60 true 175) = true
  ∧ zones (fst (performUpdate SIZE_MAX_32 monitor_three
                  (mkEnv 60 60 true 175))) !! 1%nat
    = (λ z, fst (evaluate SIZE_MAX_32 z 175 2)) <$> zones monitor_three !! 1%nat.
Proof.
  assert (Hg : update_interval_ms monitor_three
               <= sub_u32 (millis (wall_call (mkEnv 60 60 true 175)))
                    (last_update_time monitor_three))
    by (vm_compute; discriminate).
  split; [exact Hg|]. split; [reflexivity|].
  exact (X8_zones_are_independent SIZE_MAX_32 monitor_three
           (mkEnv 60 60 true 175) 1 Hg eq_refl).
Defined.

(** The last tick was 10 ms before the roll-over: a tick 40 ms after it is
    skipped, a tick 55 ms after it goes through. *)
Lemma X9_interval_test_is_exact_witness :
  last_update_time monitor_before_rollover = millis 4294967286
  ∧ (0 <= 4294967326 - 4294967286 < 2 ^ 32
     ∧ 4294967326 - 4294967286 < update_interval_ms monitor_before_rollover
     ∧ performUpdate SIZE_MAX_32 monitor_before_rollover
         (mkEnv 4294967326 4294967326 true 200)
       = (monitor_before_rollover, [Millis (millis 4294967326)]))
  ∧ (0 <= 4294967341 - 4294967286 < 2 ^ 32
     ∧ update_interval_ms monitor_before_rollover <= 4294967341 - 4294967286
     ∧ last_update_time
         (fst (performUpdate SIZE_MAX_32 monitor_before_rollover
                 (mkEnv 4294967341 4294967342 true 200)))
       = millis 4294967342).
Proof.
  assert (Hl : last_update_time monitor_before_rollover = millis 4294967286)
    by reflexivity.
  assert (H1 : 0 <= 4294967326 - 4294967286 < 2 ^ 32) by lia.
  assert (H2 : 0 <= 4294967341 - 4294967286 < 2 ^ 32) by lia.
  assert (Hlt : 4294967326 - 4294967286
                < update_interval_ms monitor_before_rollover)
    by (simpl; lia).
  assert (Hge : update_interval_ms monitor_before_rollover
                <= 4294967341 - 4294967286)
    by (simpl; lia).
  split; [exact Hl|]. split.
  - split; [exact H1|]. split; [exact Hlt|].
    exact (proj1 (X9_interval_test_is_exact SIZE_MAX_32
                    monitor_before_rollover
                    (mkEnv 4294967326 4294967326 true 200) 4294967286 Hl H1)
             Hlt).
  - split; [exact H2|]. split; [exact Hge|].
    exact (proj2 (X9_interval_test_is_exact SIZE_MAX_32
                    monitor_before_rollover
                    (mkEnv 4294967341 4294967342 true 200) 4294967286 Hl H2)
             Hge).
Defined.

(** The third zone has the lower bound 300; a call with [min = 0] for it
    leaves that bound. *)
Lemma X12_updateZone_never_writes_zero_witness :
  zones (updateZone monitor_three 2 0 450) !! 2%nat
  = Some (mkZoneObserver 300 450 false None None 0 0)
  ∧ ∃ z, zones monitor_three !! 2%nat = Some z
         ∧ (min_distance (mkZoneObserver 300 450 false None None 0 0) = 0
            → min_distance z = 0)
         ∧ (max_distance (mkZoneObserver 300 450 false None None 0 0) = 0
            → max_distance z = 0).
Proof.
  assert (H : zones (updateZone monitor_three 2 0 450) !! 2%nat
              = Some (mkZoneObserver 300 450 false None None 0 0))
    by reflexivity.
  split; [exact H|].
  exact (X12_updateZone_never_writes_zero monitor_three 2 0 450 2 _ H).
Defined.
